(** * requestbin: the Redis storage layer ([requestbin/storage/redis.py])

    A shallow embedding of [RedisStorage] and of the part of a Redis server
    it talks to, followed by the properties of the storage layer: key
    schema, staggered expiration, the bounded retry of the conditional
    write, the multi-step read of a bin and the aggregate counters.

    Conventions.
    - Time is counted in whole seconds ([Z]); [int(...)] of a sum of
      timestamps is therefore the sum itself.
    - The module is Python 2 code: [map] returns a list, so
      [reversed(map(...))] is the reversed list.
    - A Python exception is a value of [exn]; the effects a call had before
      it raised stay in the world.
    - The world holds the store, the clock, the number of identifiers drawn,
      the commands sent so far with their replies, and what other clients
      and the passing of time will do before each of the commands to come.
      A world in which nothing of the kind is scheduled is [quiet]. *)

From Stdlib Require Import ZArith Ascii String List DecimalString DecimalZ.
From stdpp Require Import base option list strings gmap.

Local Open Scope Z_scope.
Local Open Scope string_scope.

(** ** Python values: exceptions and results *)

Inductive exn : Type :=
| TypeError
| KeyError
| RuntimeError
| ValueError
| ResponseError.

#[global] Instance exn_eq_dec : EqDecision exn.
Proof. solve_decision. Defined.

Inductive result (A : Type) : Type :=
| Ok (a : A)
| Raise (e : exn).
Arguments Ok {A} a.
Arguments Raise {A} e.

(** ** Decimal numerals, as Redis and Python write integers *)

Definition print_int (z : Z) : string := NilZero.string_of_int (Z.to_int z).

(** The integer written by a decimal numeral: digits, a minus sign before
    them or none. *)
Definition parse_int (s : string) : option Z :=
  match NilZero.int_of_string s with
  | Some d => Some (Z.of_int d)
  | None => None
  end.

(** The blanks of a [str]: space, tab, line feed, vertical tab, form feed
    and carriage return. *)
Definition py_space (c : ascii) : bool :=
  let n := nat_of_ascii c in (n =? 32)%nat || ((9 <=? n)%nat && (n <=? 13)%nat).

Fixpoint lstrip (s : string) : string :=
  match s with
  | String c t => if py_space c then lstrip t else s
  | EmptyString => EmptyString
  end.

Fixpoint rstrip (s : string) : string :=
  match s with
  | String c t =>
      match rstrip t with
      | EmptyString => if py_space c then EmptyString else String c EmptyString
      | t' => String c t'
      end
  | EmptyString => EmptyString
  end.

(** Python's [int(s)] on a [str]: blanks on both sides are dropped, what is
    left is a sign or none and then decimal digits, at least one; anything
    else is a [ValueError], here [None]. *)
Definition py_int (s : string) : option Z :=
  match lstrip (rstrip s) with
  | String c t =>
      if bool_decide (c = "+"%char) then
        match NilZero.uint_of_string t with
        | Some d => Some (Z.of_uint d)
        | None => None
        end
      else parse_int (String c t)
  | EmptyString => None
  end.

Definition int64_min : Z := - 2 ^ 63.
Definition int64_max : Z := 2 ^ 63 - 1.

(** What the server accepts as the integer held by a string value: the
    canonical numeral of a signed 64-bit integer. *)
Definition redis_int (s : string) : option Z :=
  match parse_int s with
  | Some z =>
      if bool_decide (print_int z = s) && (int64_min <=? z)%Z && (z <=? int64_max)%Z
      then Some z else None
  | None => None
  end.

(** The timestamps the server takes as the expiry of a key: counted in
    milliseconds they are signed 64-bit integers. *)
Definition expirable (ts : Z) : Prop := int64_min <= ts * 1000 <= int64_max.

(** ** The Redis server *)

Inductive rval : Type :=
| RString (s : string)
| RList (l : list string).

Record entry : Type := Entry {
  value : rval;
  expiry : option Z  (* absolute time at which the key expires *)
}.

Inductive command : Type :=
| GET (k : string)
| SET (k v : string)
| SETNX (k v : string)
| EXPIREAT (k : string) (ts : Z)
| RPUSH (k x : string)
| INCR (k : string)
| LLEN (k : string)
| LRANGE (k : string) (start stop : Z)
| MGET (ks : list string)
| DEL (k : string)
| KEYS (pattern : string).

Inductive reply : Type :=
| Status
| Int (z : Z)
| Bulk (s : option string)
| Multi (l : list (option string))
| Error.

(** What other clients and the passing of time do to the store between two
    commands of this client. *)
Inductive interference : Type :=
| Idle
| Elapse (dt : N)
| Evict (k : string)
| Plant (k : string) (e : entry).

Record World : Type := MkWorld {
  store : gmap string entry;
  clock : Z;                       (* [time.time()], in seconds *)
  drawn : nat;                     (* identifiers generated so far *)
  log : list (command * reply);    (* commands this client sent, oldest first *)
  pending : list interference      (* one slot per command still to come *)
}.

Definition set_store (m : gmap string entry) (w : World) : World :=
  MkWorld m (clock w) (drawn w) (log w) (pending w).

Definition advance (w : World) : World :=
  MkWorld (store w) (clock w) (S (drawn w)) (log w) (pending w).

Definition is_live (now : Z) (e : entry) : bool :=
  match expiry e with
  | None => true
  | Some t => (now <? t)%Z
  end.

(** The entry a command sees under [k]: expired entries are gone. *)
Definition live (w : World) (k : string) : option entry :=
  match store w !! k with
  | Some e => if is_live (clock w) e then Some e else None
  | None => None
  end.

Definition disturb (i : interference) (w : World) : World :=
  match i with
  | Idle => w
  | Elapse dt => MkWorld (store w) (clock w + Z.of_N dt) (drawn w) (log w) (pending w)
  | Evict k => set_store (delete k (store w)) w
  | Plant k e => set_store (<[k := e]> (store w)) w
  end.

(** Whatever was scheduled to happen before the next command happens. *)
Definition absorb (w : World) : World :=
  match pending w with
  | [] => w
  | i :: rest =>
      disturb i (MkWorld (store w) (clock w) (drawn w) (log w) rest)
  end.

(** *** Glob patterns of [KEYS] *)

Inductive token : Type :=
| TStar
| TAny
| TLit (c : ascii)
| TClass (negated : bool) (ranges : list (ascii * ascii)).

Definition ascii_leb (a b : ascii) : bool := (nat_of_ascii a <=? nat_of_ascii b)%nat.

Definition in_range (c : ascii) (r : ascii * ascii) : bool :=
  let (lo, hi) := r in
  if ascii_leb lo hi then ascii_leb lo c && ascii_leb c hi
  else ascii_leb hi c && ascii_leb c lo.

(** Scanner state: outside a class, or inside one with what was read of it. *)
Inductive scan : Type :=
| Outside
| Inside (negated : bool) (ranges : list (ascii * ascii)).

Fixpoint tokens (st : scan) (p : list ascii) : list token :=
  match st, p with
  | Outside, [] => []
  | Outside, c :: p1 =>
      if bool_decide (c = "*"%char) then TStar :: tokens Outside p1
      else if bool_decide (c = "?"%char) then TAny :: tokens Outside p1
      else if bool_decide (c = "\"%char) then
        match p1 with
        | d :: p2 => TLit d :: tokens Outside p2
        | [] => [TLit c]
        end
      else if bool_decide (c = "["%char) then
        match p1 with
        | d :: p2 =>
            if bool_decide (d = "^"%char) then tokens (Inside true []) p2
            else tokens (Inside false []) p1
        | [] => [TClass false []]
        end
      else TLit c :: tokens Outside p1
  | Inside n rs, [] => [TClass n rs]
  | Inside n rs, c :: p1 =>
      if bool_decide (c = "]"%char) then TClass n rs :: tokens Outside p1
      else
        match p1 with
        | d :: p2 =>
            if bool_decide (c = "\"%char) then tokens (Inside n (rs ++ [(d, d)])) p2
            else
              match p2 with
              | hi :: p3 =>
                  if bool_decide (d = "-"%char) then tokens (Inside n (rs ++ [(c, hi)])) p3
                  else tokens (Inside n (rs ++ [(c, c)])) p1
              | [] => tokens (Inside n (rs ++ [(c, c)])) p1
              end
        | [] => [TClass n (rs ++ [(c, c)])]
        end
  end.

Fixpoint matches (ts : list token) (s : list ascii) {struct ts} : bool :=
  match ts with
  | [] => match s with [] => true | _ => false end
  | TStar :: ts' =>
      (fix star (s : list ascii) : bool :=
         matches ts' s || match s with [] => false | _ :: s' => star s' end) s
  | TAny :: ts' =>
      match s with [] => false | _ :: s' => matches ts' s' end
  | TLit c :: ts' =>
      match s with
      | [] => false
      | d :: s' => bool_decide (c = d) && matches ts' s'
      end
  | TClass n rs :: ts' =>
      match s with
      | [] => false
      | d :: s' => xorb n (existsb (in_range d) rs) && matches ts' s'
      end
  end.

Definition glob (pattern key : string) : bool :=
  matches (tokens Outside (list_ascii_of_string pattern)) (list_ascii_of_string key).

(** *** Commands *)

Definition put (k : string) (e : entry) (w : World) : World :=
  set_store (<[k := e]> (store w)) w.

Definition drop_key (k : string) (w : World) : World :=
  set_store (delete k (store w)) w.

(** [LRANGE]: both ends inclusive, negative indices count from the end. *)
Definition lrange (l : list string) (start stop : Z) : list string :=
  let len := Z.of_nat (length l) in
  let start := if (start <? 0)%Z then Z.max 0 (start + len) else start in
  let stop := if (stop <? 0)%Z then stop + len else stop in
  let stop := Z.min stop (len - 1) in
  if (stop <? start)%Z then []
  else take (Z.to_nat (stop - start + 1)) (drop (Z.to_nat start) l).

Definition bulk_of (w : World) (k : string) : option string :=
  match live w k with
  | Some (Entry (RString s) _) => Some s
  | _ => None
  end.

Definition live_keys (w : World) (pattern : string) : list string :=
  omap (fun kv : string * entry =>
          if is_live (clock w) kv.2 && glob pattern kv.1 then Some kv.1 else None)
       (map_to_list (store w)).

(** The effect of one command on a store that has absorbed what was
    pending, and the reply sent back. [EXPIREAT] is the server's on the
    timestamps that are [expirable]; the server answers the others with an
    error, which is not modelled. *)
Definition serve (c : command) (w : World) : reply * World :=
  match c with
  | GET k =>
      match live w k with
      | Some (Entry (RString s) _) => (Bulk (Some s), w)
      | Some (Entry (RList _) _) => (Error, w)
      | None => (Bulk None, w)
      end
  | SET k v => (Status, put k (Entry (RString v) None) w)
  | SETNX k v =>
      match live w k with
      | Some _ => (Int 0, w)
      | None => (Int 1, put k (Entry (RString v) None) w)
      end
  | EXPIREAT k ts =>
      match live w k with
      | Some e => (Int 1, put k (Entry (value e) (Some ts)) w)
      | None => (Int 0, w)
      end
  | RPUSH k x =>
      match live w k with
      | Some (Entry (RList l) t) =>
          (Int (Z.of_nat (length l) + 1), put k (Entry (RList (l ++ [x])) t) w)
      | Some (Entry (RString _) _) => (Error, w)
      | None => (Int 1, put k (Entry (RList [x]) None) w)
      end
  | INCR k =>
      match live w k with
      | Some (Entry (RString s) t) =>
          match redis_int s with
          | Some z =>
              if (z <? int64_max)%Z
              then (Int (z + 1), put k (Entry (RString (print_int (z + 1))) t) w)
              else (Error, w)
          | None => (Error, w)
          end
      | Some (Entry (RList _) _) => (Error, w)
      | None => (Int 1, put k (Entry (RString (print_int 1)) None) w)
      end
  | LLEN k =>
      match live w k with
      | Some (Entry (RList l) _) => (Int (Z.of_nat (length l)), w)
      | Some (Entry (RString _) _) => (Error, w)
      | None => (Int 0, w)
      end
  | LRANGE k start stop =>
      match live w k with
      | Some (Entry (RList l) _) => (Multi (Some <$> lrange l start stop), w)
      | Some (Entry (RString _) _) => (Error, w)
      | None => (Multi [], w)
      end
  | MGET ks => (Multi (bulk_of w <$> ks), w)
  | DEL k =>
      match live w k with
      | Some _ => (Int 1, drop_key k w)
      | None => (Int 0, drop_key k w)
      end
  | KEYS pattern => (Multi (Some <$> live_keys w pattern), w)
  end.

Definition record (c : command) (r : reply) (w : World) : World :=
  MkWorld (store w) (clock w) (drawn w) (log w ++ [(c, r)]) (pending w).

(** One round trip: the command reaches the server after whatever was
    pending happened, is served, and is written down with its reply. *)
Definition execute_command (c : command) (w : World) : reply * World :=
  let (r, w') := serve c (absorb w) in (r, record c r w').

(** ** The program monad: state and exceptions *)

Definition io (A : Type) : Type := World -> result A * World.

Definition ret {A} (a : A) : io A := fun w => (Ok a, w).

Definition raise {A} (e : exn) : io A := fun w => (Raise e, w).

Definition bind {A B} (m : io A) (f : A -> io B) : io B :=
  fun w =>
    match m w with
    | (Ok a, w') => f a w'
    | (Raise e, w') => (Raise e, w')
    end.

(** Whether [m] ran without raising: [True] at the end of a [try] block,
    [False] from its [except Exception]. *)
Definition succeeds {A} (m : io A) : io bool :=
  fun w =>
    match m w with
    | (Ok _, w') => (Ok true, w')
    | (Raise _, w') => (Ok false, w')
    end.

(** [try: m except e: h] *)
Definition try_except {A} (m : io A) (e : exn) (h : io A) : io A :=
  fun w =>
    match m w with
    | (Raise e', w') => if bool_decide (e' = e) then h w' else (Raise e', w')
    | r => r
    end.

Definition lift {A} (r : result A) : io A := fun w => (r, w).

Notation "'let*' x ':=' m 'in' k" := (bind m (fun x => k))
  (at level 10, x name, m at level 100, k at level 200, only parsing).
Notation "'exec' m 'in' k" := (bind m (fun _ => k))
  (at level 10, m at level 100, k at level 200, only parsing).

(** ** The client library: [redis.StrictRedis] *)

(** Each method sends one command and converts the reply; an error reply
    becomes [ResponseError]. *)
Definition redis_get (k : string) : io (option string) :=
  fun w =>
    match execute_command (GET k) w with
    | (Bulk s, w') => (Ok s, w')
    | (_, w') => (Raise ResponseError, w')
    end.

Definition redis_set (k v : string) : io bool :=
  fun w =>
    match execute_command (SET k v) w with
    | (Status, w') => (Ok true, w')
    | (_, w') => (Raise ResponseError, w')
    end.

Definition integer_reply (c : command) : io Z :=
  fun w =>
    match execute_command c w with
    | (Int z, w') => (Ok z, w')
    | (_, w') => (Raise ResponseError, w')
    end.

Definition redis_setnx (k v : string) : io bool :=
  let* z := integer_reply (SETNX k v) in ret (bool_decide (z = 1)).

Definition redis_expireat (k : string) (ts : Z) : io bool :=
  let* z := integer_reply (EXPIREAT k ts) in ret (bool_decide (z = 1)).

Definition redis_rpush (k x : string) : io Z := integer_reply (RPUSH k x).

Definition redis_incr (k : string) : io Z := integer_reply (INCR k).

Definition redis_llen (k : string) : io Z := integer_reply (LLEN k).

Definition redis_delete (k : string) : io Z := integer_reply (DEL k).

Definition multi_reply (c : command) : io (list (option string)) :=
  fun w =>
    match execute_command c w with
    | (Multi l, w') => (Ok l, w')
    | (_, w') => (Raise ResponseError, w')
    end.

Definition redis_lrange (k : string) (start stop : Z) : io (list string) :=
  let* l := multi_reply (LRANGE k start stop) in ret (omap id l).

(** [mget] has one mandatory positional argument: unpacking an empty list
    of keys into the call is a [TypeError] of the call itself, and nothing
    is sent. *)
Definition redis_mget (ks : list string) : io (list (option string)) :=
  match ks with
  | [] => raise TypeError
  | _ => multi_reply (MGET ks)
  end.

Definition redis_keys (pattern : string) : io (list string) :=
  let* l := multi_reply (KEYS pattern) in ret (omap id l).

(** ** The models: [Bin], [Request] and [tinyid] *)

(** Modelled from the spec: the two records of section 3, a request with
    its identifier and opaque payload, a bin with its name, creation time in
    seconds, visibility flag and requests. *)
Record Request : Type := MkRequest {
  Request_id : string;
  Request_payload : string
}.

Record Bin : Type := MkBin {
  Bin_name : string;
  Bin_created : Z;
  Bin_private : bool;
  Bin_requests : list Request
}.

Definition set_id (rid : string) (r : Request) : Request :=
  MkRequest rid (Request_payload r).

Definition set_requests (rs : list Request) (b : Bin) : Bin :=
  MkBin (Bin_name b) (Bin_created b) (Bin_private b) rs.

(** Modelled from the spec: what the storage layer imports from
    [requestbin.models] and [requestbin.util], the identifier generator and
    the serialisation of the two records into opaque byte strings. *)
Class Models : Type := {
  entropy : nat -> nat -> string;  (* the k-th identifier drawn, of a given size *)
  pack_bin : Bin -> string;
  unpack_bin : string -> option Bin;
  pack_request : Request -> string;
  unpack_request : string -> option Request
}.

(** Modelled from the spec: what is read back is what was written, a bin
    without its requests (section 3: the detail record never stores them
    inline). *)
Class Lossless `{Models} : Prop := {
  unpack_pack_bin : forall b, unpack_bin (pack_bin b) = Some (set_requests [] b);
  unpack_pack_request : forall r, unpack_request (pack_request r) = Some r
}.

Section Storage.

Context `{Models}.

(** Modelled from the spec: [tinyid(size)], the generator of short opaque
    identifiers; every call draws the next one. *)
Definition tinyid (size : nat) : io string :=
  fun w => (Ok (entropy (drawn w) size), advance w).

Definition now : io Z := fun w => (Ok (clock w), w).

(** Modelled from the spec: the constructor [Bin(private)], a new name, the
    current time, no requests. The size of a name is not specified; 8 is
    the one used here and nothing depends on it. *)
Definition Bin_new (private : bool) : io Bin :=
  let* created := now in
  let* name := tinyid 8 in
  ret (MkBin name created private []).

(** Modelled from the spec: the constructor [Request(input)], a candidate
    identifier of size 6 (section 4.3) and the payload as it came. *)
Definition Request_new (input : string) : io Request :=
  let* rid := tinyid 6 in
  ret (MkRequest rid input).

(** Modelled from the spec: [Bin.dump()], the serialised bin without its
    requests. *)
Definition Bin_dump (b : Bin) : string := pack_bin b.

(** Modelled from the spec: [Request.dump()], the serialised request. *)
Definition Request_dump (r : Request) : string := pack_request r.

(** Modelled from the spec: [Bin.load(data)]. Section 4.4, steps 1 and 2:
    an absent record ([None]) and an undecodable one both end in NotFound,
    which [lookup_bin] raises from a [TypeError] only. *)
Definition Bin_load (data : option string) : result Bin :=
  match data with
  | None => Raise TypeError
  | Some s =>
      match unpack_bin s with
      | Some b => Ok b
      | None => Raise TypeError
      end
  end.

(** Modelled from the spec: [Request.load(data)], which decodes the way
    [Bin.load] does: [None] is no byte string. *)
Definition Request_load (data : option string) : result Request :=
  match data with
  | None => Raise TypeError
  | Some s =>
      match unpack_request s with
      | Some r => Ok r
      | None => Raise TypeError
      end
  end.

(** Python 2 [map(f, l)]: [f] on each element from the left, the first
    exception ends it. *)
Fixpoint py_map {A B} (f : A -> result B) (l : list A) : result (list B) :=
  match l with
  | [] => Ok []
  | x :: l' =>
      match f x with
      | Ok y =>
          match py_map f l' with
          | Ok ys => Ok (y :: ys)
          | Raise e => Raise e
          end
      | Raise e => Raise e
      end
  end.

(** ** [class RedisStorage] *)

Record RedisStorage : Type := MkRedisStorage {
  prefix : string;  (* [config.REDIS_PREFIX] *)
  bin_ttl : Z
}.

Variable self : RedisStorage.

Definition _key_bin (name : string) : string :=
  prefix self ++ ":bins:" ++ name ++ ":details".

Definition _key_request_list (bin_name : string) : string :=
  prefix self ++ ":bins:" ++ bin_name ++ ":requests".

Definition _key_request (bin_name request_id : string) : string :=
  prefix self ++ ":bins:" ++ bin_name ++ ":requests:" ++ request_id.

Definition _request_count_key : string := prefix self ++ ":requests".

Definition create_bin (private : bool) : io Bin :=
  let* bin := Bin_new private in
  let key := _key_bin (Bin_name bin) in
  exec redis_set key (Bin_dump bin) in
  exec redis_expireat key (Bin_created bin + bin_ttl self) in
  ret bin.

(** [for i in range(n)]: the conditional write, [break] when it succeeded,
    a new identifier for the request when it did not. The key was computed
    before the loop and is the same in every round. *)
Fixpoint write_loop (n : nat) (key_request : string) (request : Request)
    (write_successful : bool) : io (bool * Request) :=
  match n with
  | O => ret (write_successful, request)
  | S n' =>
      let* write_successful := redis_setnx key_request (Request_dump request) in
      if write_successful then ret (true, request)
      else
        let* rid := tinyid 6 in
        write_loop n' key_request (set_id rid request) false
  end.

(** The body has no [return]: a call that does not raise evaluates to
    Python's [None]. *)
Definition create_request (bin : Bin) (input : string) : io (option Request) :=
  let* request := Request_new input in
  let key_request := _key_request (Bin_name bin) (Request_id request) in
  let* looped := write_loop 50 key_request request false in
  let write_successful := looped.1 in
  let request := looped.2 in
  if negb write_successful then raise RuntimeError
  else
    exec redis_expireat key_request (Bin_created bin + bin_ttl self + 2) in
    let key_list := _key_request_list (Bin_name bin) in
    exec redis_rpush key_list (Request_id request) in
    exec redis_expireat key_list (Bin_created bin + bin_ttl self + 1) in
    exec redis_setnx _request_count_key (print_int 0) in
    exec redis_incr _request_count_key in
    ret None.

Definition count_bins : io nat :=
  let* keys := redis_keys (prefix self ++ "_*") in
  ret (length keys).

(** [int(x or 0)]: [None] and the empty string are falsy. *)
Definition count_requests : io Z :=
  let* x := redis_get _request_count_key in
  match x with
  | None => ret 0
  | Some s =>
      if bool_decide (s = "") then ret 0
      else match py_int s with
           | Some z => ret z
           | None => raise ValueError
           end
  end.

Definition lookup_bin (name : string) : io Bin :=
  let key_bin := _key_bin name in
  let* serialized_bin := redis_get key_bin in
  try_except
    (let* bin := lift (Bin_load serialized_bin) in
     let key_list := _key_request_list name in
     let* request_count := redis_llen key_list in
     if (0 <? request_count)%Z then
       let* request_ids := redis_lrange key_list 0 (request_count - 1) in
       let request_keys := map (fun x => _key_request name x) request_ids in
       let* serialized_requests := redis_mget request_keys in
       let* requests := lift (py_map Request_load serialized_requests) in
       ret (set_requests (rev requests) bin)
     else ret bin)
    TypeError
    (exec redis_delete key_bin in
     raise KeyError).

End Storage.

Arguments RedisStorage : clear implicits.

(** ** A reference serialiser

    A concrete instance of [Models], on which the development is run on
    explicit inputs. A string is written character by character, each
    behind a dot, and closed by an exclamation mark; a request is its
    identifier followed by the payload; a bin is its visibility flag, its
    name and the numeral of its creation time. *)

Module Reference.

Fixpoint write_string (s : string) : string :=
  match s with
  | EmptyString => "!"
  | String c s' => String "."%char (String c (write_string s'))
  end.

Fixpoint read_string (s : string) : option (string * string) :=
  match s with
  | String "!"%char rest => Some (EmptyString, rest)
  | String "."%char (String c rest) =>
      match read_string rest with
      | Some (x, r) => Some (String c x, r)
      | None => None
      end
  | _ => None
  end.

Definition pack_request (r : Request) : string :=
  write_string (Request_id r) ++ Request_payload r.

Definition unpack_request (s : string) : option Request :=
  match read_string s with
  | Some (rid, rest) => Some (MkRequest rid rest)
  | None => None
  end.

Definition pack_bin (b : Bin) : string :=
  String (if Bin_private b then "P"%char else "p"%char)
         (write_string (Bin_name b) ++ print_int (Bin_created b)).

Definition unpack_bin (s : string) : option Bin :=
  match s with
  | String flag s' =>
      if bool_decide (flag = "P"%char) || bool_decide (flag = "p"%char) then
        match read_string s' with
        | Some (name, rest) =>
            match parse_int rest with
            | Some created => Some (MkBin name created (bool_decide (flag = "P"%char)) [])
            | None => None
            end
        | None => None
        end
      else None
  | EmptyString => None
  end.

(** The generator hands out ["id0"], ["id1"], ... whatever the size asked. *)
Definition entropy (k size : nat) : string := "id" ++ print_int (Z.of_nat k).

End Reference.

Definition reference_models : Models := {|
  entropy := Reference.entropy;
  pack_bin := Reference.pack_bin;
  unpack_bin := Reference.unpack_bin;
  pack_request := Reference.pack_request;
  unpack_request := Reference.unpack_request
|}.

Local Close Scope string_scope.

(** * Vocabulary of the properties *)

(** Nothing is scheduled to happen between the commands to come. *)
Definition quiet (w : World) : Prop := pending w = [].

(** The identifiers of the index list under [k], none when there is no list. *)
Definition listing (w : World) (k : string) : list string :=
  match live w k with
  | Some (Entry (RList l) _) => l
  | _ => []
  end.

(** [RPUSH] is refused on a key that holds a string. *)
Definition index_ok (w : World) (k : string) : bool :=
  match live w k with
  | Some (Entry (RString _) _) => false
  | _ => true
  end.

(** The integer the server reads under [k]: zero when the key is absent,
    none when the key holds anything but the numeral of an integer. *)
Definition counter (w : World) (k : string) : option Z :=
  match live w k with
  | Some (Entry (RString s) _) => redis_int s
  | Some (Entry (RList _) _) => None
  | None => Some 0
  end.

Definition counter_expiry (w : World) (k : string) : option Z :=
  match live w k with
  | Some e => expiry e
  | None => None
  end.

(** The moment at which the server drops the key, if one is set. *)
Definition expires_at (w : World) (k : string) : option Z :=
  match store w !! k with
  | Some e => expiry e
  | None => None
  end.

(** A conditional write to [kr] that the server refused. *)
Definition failed_write (kr : string) (ev : command * reply) : Prop :=
  exists v, ev = (SETNX kr v, Int 0).

(** Any command but a conditional write to [kr]. *)
Definition other_than_write (kr : string) (ev : command * reply) : Prop :=
  forall v, ev.1 <> SETNX kr v.

(** A character that stands for itself in a pattern. *)
Definition plain (c : ascii) : Prop :=
  c <> "*"%char /\ c <> "?"%char /\ c <> "\"%char /\ c <> "["%char.

(** An identifier without the separator of the key schema. *)
Definition colon_free (s : string) : Prop :=
  Forall (fun c => c <> ":"%char) (list_ascii_of_string s).

(** The world a moment later: [dt] seconds have passed and nothing else
    happened. *)
Definition later (dt : Z) (w : World) : World :=
  MkWorld (store w) (clock w + dt) (drawn w) (log w) (pending w).

(** What was sent between [w] and [w']. *)
Definition sent (w w' : World) : list (command * reply) :=
  drop (length (log w)) (log w').

(** The identifier a request carries after [k] refused writes: its first
    one, or the last one drawn, the draws starting at number [d]. *)
Definition kth_id `{Models} (rid0 : string) (d k : nat) : string :=
  match k with
  | O => rid0
  | S j => entropy (d + j) 6
  end.

(** The record behind a key decodes to the request [r]. *)
Definition decodes `{Models} (w : World) (k : string) (r : Request) : Prop :=
  exists s, bulk_of w k = Some s /\ unpack_request s = Some r.

Section Callers.

Context `{Models} (self : RedisStorage).

(** The store after a call that went through: the record under its key,
    the identifier at the end of the index, the counter one up. *)
Definition after_request (bin : Bin) (input : string) (z : Z) (w : World) :
    gmap string entry :=
  let rid := entropy (drawn w) 6 in
  let kl := _key_request_list self (Bin_name bin) in
  let ck := _request_count_key self in
  let t := Bin_created bin + bin_ttl self in
  <[ck := Entry (RString (print_int (z + 1))) (counter_expiry w ck)]>
    (<[kl := Entry (RList (listing w kl ++ [rid])) (Some (t + 1))]>
       (<[_key_request self (Bin_name bin) rid :=
            Entry (RString (Request_dump (MkRequest rid input))) (Some (t + 2))]>
          (store w))).

(** A caller making the calls of a list, in order; the first exception
    ends the run. *)
Fixpoint create_all (calls : list (Bin * string)) : io unit :=
  match calls with
  | [] => ret tt
  | (bin, input) :: calls' =>
      exec create_request self bin input in create_all calls'
  end.

(** A caller that goes on after a call that raised, and counts the calls
    that went through. *)
Fixpoint attempt_all (calls : list (Bin * string)) : io nat :=
  match calls with
  | [] => ret 0%nat
  | (bin, input) :: calls' =>
      let* ok := succeeds (create_request self bin input) in
      let* n := attempt_all calls' in
      ret (if ok then S n else n)
  end.

(** The requests that successive calls build from the payloads, when every
    call draws one identifier, the first being number [d]. *)
Fixpoint made (d : nat) (inputs : list string) : list Request :=
  match inputs with
  | [] => []
  | input :: inputs' => MkRequest (entropy d 6) input :: made (S d) inputs'
  end.

(** The bin has not expired, its index lists the identifiers of [rs] in
    order, and each of them has its record behind it. *)
Definition serving (w : World) (bin : Bin) (rs : list Request) : Prop :=
  quiet w /\
  clock w < Bin_created bin + bin_ttl self /\
  index_ok w (_key_request_list self (Bin_name bin)) = true /\
  listing w (_key_request_list self (Bin_name bin)) = Request_id <$> rs /\
  Forall (fun r => bulk_of w (_key_request self (Bin_name bin) (Request_id r))
                   = Some (Request_dump r)) rs.

(** The index list and the records of [rs] carry the expiry that
    [create_request] gives them. *)
Definition stamped (w : World) (bin : Bin) (rs : list Request) : Prop :=
  (rs <> [] ->
   expires_at w (_key_request_list self (Bin_name bin))
   = Some (Bin_created bin + bin_ttl self + 1)) /\
  Forall (fun r => expires_at w (_key_request self (Bin_name bin) (Request_id r))
                   = Some (Bin_created bin + bin_ttl self + 2)) rs.

End Callers.

(** * Explicit inputs

    A deployment, a few worlds and a few runs, on which the properties
    below are instantiated. *)

Module Run.

Definition storage : RedisStorage := MkRedisStorage "requestbin" 172800.

(** An empty store at time 1000, nothing drawn, nothing sent, nothing due. *)
Definition empty : World := MkWorld ∅ 1000 0 [] [].

Definition create_bin := @create_bin reference_models storage.
Definition create_request := @create_request reference_models storage.
Definition lookup_bin := @lookup_bin reference_models storage.
Definition count_bins := count_bins storage.
Definition count_requests := count_requests storage.

(** The bin that [create_bin] makes in the empty world. *)
Definition bin0 : Bin := MkBin "id0" 1000 false [].
Definition with_bin : World := (create_bin false empty).2.

Definition details0 : entry := Entry (RString (Reference.pack_bin bin0)) (Some 173800).

(** The bin with an index of two identifiers, the second without record. *)
Definition missing_record : World :=
  MkWorld
    (<["requestbin:bins:id0:requests:id1" :=
         Entry (RString (Reference.pack_request (MkRequest "id1" "hello"))) (Some 173802)]>
       (<["requestbin:bins:id0:requests" := Entry (RList ["id1"; "id2"]) (Some 173801)]>
          (<["requestbin:bins:id0:details" := details0]> ∅)))
    1000 3 [] [].

(** Bytes that are no bin under the details key. *)
Definition corrupt : World :=
  MkWorld (<["requestbin:bins:id0:details" := Entry (RString "garbage") None]> ∅)
    1000 1 [] [].

(** The record key of the next request is taken. *)
Definition occupied : World :=
  MkWorld (<["requestbin:bins:id0:requests:id1" := Entry (RString "taken") None]>
             (<["requestbin:bins:id0:details" := details0]> ∅))
    1000 1 [] [].

(** The same, and another client removes the record before the third try. *)
Definition evicted_later : World :=
  MkWorld (store occupied) 1000 1 []
    [Idle; Idle; Evict "requestbin:bins:id0:requests:id1"].

(** After the first request on [bin0], and after three of them. *)
Definition with_request : World := (create_request bin0 "hello" with_bin).2.

Definition three_calls : list (Bin * string) :=
  (fun p => (bin0, p)) <$> ["first"; "second"; "third"].

Definition with_three : World :=
  (create_all (H := reference_models) storage three_calls with_bin).2.

(** A bin that was never created. *)
Definition ghost : Bin := MkBin "ghost" 500 true [].

(** Two bins made one after the other in the empty world. *)
Definition with_two_bins : World := (create_bin true (create_bin false empty).2).2.

(** A call on [bin0] that finds its key taken, one on [ghost], one on
    [bin0] again. *)
Definition mixed_calls : list (Bin * string) :=
  [(bin0, "a"); (ghost, "b"); (bin0, "c")].

Definition after_mixed : World :=
  (attempt_all (H := reference_models) storage mixed_calls occupied).2.

(** What the two runs of the retry loop leave behind. *)
Definition given_up : World := (create_request bin0 "hello" occupied).2.
Definition after_eviction : World := (create_request bin0 "hello" evicted_later).2.

(** The counter key holds something that is no number. *)
Definition broken_counter : World :=
  MkWorld (<["requestbin:requests" := Entry (RString "many") None]>
             (<["requestbin:bins:id0:details" := details0]> ∅))
    1000 1 [] [].

(** A deployment that keeps nothing. *)
Definition no_retention : RedisStorage := MkRedisStorage "requestbin" 0.

(** The store of [with_three] with a generator that starts over: the next
    name it hands out is ["id0"] again. *)
Definition name_reused : World := MkWorld (store with_three) 1000 0 [] [].

Definition three_requests : list Request :=
  [MkRequest "id1" "first"; MkRequest "id2" "second"; MkRequest "id3" "third"].

(** Another client removes the details of the bin between the two commands
    of [create_bin]. *)
Definition racing : World :=
  MkWorld ∅ 1000 0 [] [Idle; Evict "requestbin:bins:id0:details"].

(** A key of somebody else next to a bin. *)
Definition with_foreign : World :=
  MkWorld (<["requestbin_backup" := Entry (RString "x") None]>
             (<["requestbin:bins:id0:details" := details0]> ∅))
    1000 1 [] [].

End Run.

(** * Properties *)

(** ** Numerals *)

Lemma parse_print_int (z : Z) : parse_int (print_int z) = Some z.
Proof.
  unfold parse_int, print_int.
  rewrite NilZero.isi.
  - by rewrite DecimalZ.of_to.
  - destruct z as [|p|p]; simpl; try discriminate.
    intros [= Hp]. by apply DecimalPos.Unsigned.to_uint_nonnil in Hp.
  - destruct z as [|p|p]; simpl; try discriminate.
    intros [= Hp]. by apply DecimalPos.Unsigned.to_uint_nonnil in Hp.
Qed.

Lemma redis_int_print (z : Z) :
  int64_min <= z <= int64_max -> redis_int (print_int z) = Some z.
Proof.
  intros [Hlo Hhi]. unfold redis_int. rewrite parse_print_int.
  rewrite bool_decide_eq_true_2 by done.
  apply Z.leb_le in Hlo, Hhi. by rewrite Hlo, Hhi.
Qed.

Lemma redis_int_parse (s : string) (z : Z) :
  redis_int s = Some z -> parse_int s = Some z /\ int64_min <= z <= int64_max.
Proof.
  unfold redis_int. destruct (parse_int s) as [z'|]; [|done].
  destruct (bool_decide _); [|done]. simpl.
  destruct (int64_min <=? z')%Z eqn:Hlo; [|done].
  destruct (z' <=? int64_max)%Z eqn:Hhi; [|done]. simpl.
  intros [= ->]. apply Z.leb_le in Hlo, Hhi. done.
Qed.

Lemma uint_of_char_Some (a : ascii) (od : option Decimal.uint) (d : Decimal.uint) :
  DecimalString.uint_of_char a od = Some d ->
  py_space a = false /\ a <> "+"%char /\ is_Some od.
Proof.
  destruct od as [d'|]; [|done].
  destruct a as [[] [] [] [] [] [] [] []]; try discriminate; intros _;
    (split; [reflexivity|]); (split; [discriminate|]); by eexists.
Qed.

Lemma uint_of_string_strip (s : string) (d : Decimal.uint) :
  NilEmpty.uint_of_string s = Some d ->
  rstrip s = s /\
  match s with String a _ => py_space a = false /\ a <> "+"%char | _ => True end.
Proof.
  revert d. induction s as [|a s IH]; intros d Hd; [done|].
  cbn [NilEmpty.uint_of_string] in Hd.
  apply uint_of_char_Some in Hd as (Hsp & Hplus & [d' Hd']).
  destruct (IH d' Hd') as [Hr _]. split; [|done].
  cbn [rstrip]. rewrite Hr. destruct s; [by rewrite Hsp|done].
Qed.

(** On a numeral [int] reads the integer it writes. *)
Lemma py_int_parse (s : string) (z : Z) : parse_int s = Some z -> py_int s = Some z.
Proof.
  intros Hz.
  assert (Hstrip : lstrip (rstrip s) = s /\
                   match s with String a _ => a <> "+"%char | _ => False end).
  { unfold parse_int, NilZero.int_of_string in Hz.
    destruct s as [|a s]; [done|].
    destruct (Ascii.eqb_spec a "-").
    - subst a. unfold NilZero.uint_of_string in Hz.
      destruct s as [|b s]; [done|].
      destruct (NilEmpty.uint_of_string (String b s)) as [d|] eqn:Hd; [|done].
      apply uint_of_string_strip in Hd as [Hr _].
      split; [|done]. set (t := String b s) in *.
      cbn [rstrip]. rewrite Hr. reflexivity.
    - unfold NilZero.uint_of_string in Hz.
      destruct (NilEmpty.uint_of_string (String a s)) as [d|] eqn:Hd; [|done].
      apply uint_of_string_strip in Hd as [Hr [Hsp Hplus]].
      split; [|done]. rewrite Hr. cbn [lstrip]. by rewrite Hsp. }
  destruct Hstrip as [Hs Hplus]. unfold py_int. rewrite Hs.
  destruct s as [|a s]; [done|]. by rewrite bool_decide_eq_false_2.
Qed.

(** ** The reference serialiser reads back what it wrote *)

Lemma read_write_string (s rest : string) :
  Reference.read_string (Reference.write_string s ++ rest)%string = Some (s, rest).
Proof.
  induction s as [|c s IH]; simpl; [done|].
  by rewrite IH.
Qed.

Lemma reference_unpack_pack_request (r : Request) :
  Reference.unpack_request (Reference.pack_request r) = Some r.
Proof.
  unfold Reference.unpack_request, Reference.pack_request.
  rewrite read_write_string. by destruct r.
Qed.

Lemma reference_unpack_pack_bin (b : Bin) :
  Reference.unpack_bin (Reference.pack_bin b) = Some (set_requests [] b).
Proof.
  unfold Reference.unpack_bin, Reference.pack_bin.
  rewrite read_write_string, parse_print_int.
  destruct b as [name created [] rs]; reflexivity.
Qed.

Lemma reference_lossless : @Lossless reference_models.
Proof.
  split; [exact reference_unpack_pack_bin|exact reference_unpack_pack_request].
Qed.

(** ** Worlds *)

Lemma absorb_quiet (w : World) : quiet w -> absorb w = w.
Proof. unfold quiet, absorb. by intros ->. Qed.

Lemma execute_command_quiet (c : command) (w : World) :
  quiet w ->
  execute_command c w = (let (r, w') := serve c w in (r, record c r w')).
Proof. intros Hq. unfold execute_command. by rewrite absorb_quiet. Qed.

Lemma live_record (c : command) (r : reply) (w : World) (k : string) :
  live (record c r w) k = live w k.
Proof. reflexivity. Qed.

Lemma live_put (k k' : string) (e : entry) (w : World) :
  live (put k e w) k' =
  if decide (k = k') then (if is_live (clock w) e then Some e else None)
  else live w k'.
Proof.
  unfold live, put. simpl. rewrite lookup_insert. by destruct (decide (k = k')).
Qed.

Lemma live_put_eq (k : string) (e : entry) (w : World) :
  is_live (clock w) e = true -> live (put k e w) k = Some e.
Proof. intros He. rewrite live_put, decide_True by done. by rewrite He. Qed.

Lemma live_put_ne (k k' : string) (e : entry) (w : World) :
  k <> k' -> live (put k e w) k' = live w k'.
Proof. intros Hne. by rewrite live_put, decide_False. Qed.

Lemma live_Some_is_live (w : World) (k : string) (e : entry) :
  live w k = Some e -> store w !! k = Some e /\ is_live (clock w) e = true.
Proof.
  unfold live. destruct (store w !! k) as [e'|]; [|done].
  destruct (is_live (clock w) e') eqn:He; [|done]. by intros [= <-].
Qed.

(** ** The key schema *)

Section Keys.

Context (self : RedisStorage).

Lemma append_cons (c : ascii) (s1 s2 : string) :
  (String c s1 ++ s2 = String c (s1 ++ s2))%string.
Proof. reflexivity. Qed.

Lemma key_bin_list (name : string) :
  _key_bin self name <> _key_request_list self name.
Proof.
  unfold _key_bin, _key_request_list. intros E.
  do 3 apply String.app_inj in E. discriminate E.
Qed.

Lemma key_bin_request (name rid : string) :
  _key_bin self name <> _key_request self name rid.
Proof.
  unfold _key_bin, _key_request. intros E.
  do 3 apply String.app_inj in E. rewrite !append_cons in E. discriminate E.
Qed.

Lemma key_list_request (name rid : string) :
  _key_request_list self name <> _key_request self name rid.
Proof.
  unfold _key_request_list, _key_request. intros E.
  do 3 apply String.app_inj in E. rewrite !append_cons in E. discriminate E.
Qed.

Lemma key_request_inj (name rid rid' : string) :
  _key_request self name rid = _key_request self name rid' -> rid = rid'.
Proof.
  unfold _key_request. intros E. by do 4 apply String.app_inj in E.
Qed.

Lemma key_count_bin (name : string) :
  _request_count_key self <> _key_bin self name.
Proof.
  unfold _request_count_key, _key_bin. intros E.
  apply String.app_inj in E. rewrite !append_cons in E. discriminate E.
Qed.

Lemma key_count_list (name : string) :
  _request_count_key self <> _key_request_list self name.
Proof.
  unfold _request_count_key, _key_request_list. intros E.
  apply String.app_inj in E. rewrite !append_cons in E. discriminate E.
Qed.

Lemma key_count_request (name rid : string) :
  _request_count_key self <> _key_request self name rid.
Proof.
  unfold _request_count_key, _key_request. intros E.
  apply String.app_inj in E. rewrite !append_cons in E. discriminate E.
Qed.

End Keys.

(** ** One command at a time, when nothing interferes *)

Lemma redis_get_quiet (k : string) (w : World) :
  quiet w ->
  redis_get k w =
  match live w k with
  | Some (Entry (RString s) _) => (Ok (Some s), record (GET k) (Bulk (Some s)) w)
  | Some (Entry (RList _) _) => (Raise ResponseError, record (GET k) Error w)
  | None => (Ok None, record (GET k) (Bulk None) w)
  end.
Proof.
  intros Hq. unfold redis_get. rewrite execute_command_quiet by done. simpl.
  by destruct (live w k) as [[[s|l] t]|].
Qed.

Lemma redis_set_quiet (k v : string) (w : World) :
  quiet w ->
  redis_set k v w = (Ok true, record (SET k v) Status (put k (Entry (RString v) None) w)).
Proof.
  intros Hq. unfold redis_set. by rewrite execute_command_quiet.
Qed.

Lemma redis_setnx_quiet (k v : string) (w : World) :
  quiet w ->
  redis_setnx k v w =
  match live w k with
  | Some _ => (Ok false, record (SETNX k v) (Int 0) w)
  | None => (Ok true, record (SETNX k v) (Int 1) (put k (Entry (RString v) None) w))
  end.
Proof.
  intros Hq. unfold redis_setnx, integer_reply, bind.
  rewrite execute_command_quiet by done. simpl.
  by destruct (live w k).
Qed.

Lemma redis_expireat_quiet (k : string) (ts : Z) (w : World) :
  quiet w ->
  redis_expireat k ts w =
  match live w k with
  | Some e => (Ok true, record (EXPIREAT k ts) (Int 1) (put k (Entry (value e) (Some ts)) w))
  | None => (Ok false, record (EXPIREAT k ts) (Int 0) w)
  end.
Proof.
  intros Hq. unfold redis_expireat, integer_reply, bind.
  rewrite execute_command_quiet by done. simpl.
  by destruct (live w k).
Qed.

Lemma redis_rpush_quiet (k x : string) (w : World) :
  quiet w ->
  redis_rpush k x w =
  match live w k with
  | Some (Entry (RList l) t) =>
      (Ok (Z.of_nat (length l) + 1),
       record (RPUSH k x) (Int (Z.of_nat (length l) + 1)) (put k (Entry (RList (l ++ [x])) t) w))
  | Some (Entry (RString _) _) => (Raise ResponseError, record (RPUSH k x) Error w)
  | None => (Ok 1, record (RPUSH k x) (Int 1) (put k (Entry (RList [x]) None) w))
  end.
Proof.
  intros Hq. unfold redis_rpush, integer_reply.
  rewrite execute_command_quiet by done. simpl.
  by destruct (live w k) as [[[s|l] t]|].
Qed.

Lemma redis_incr_quiet (k : string) (w : World) :
  quiet w ->
  redis_incr k w =
  match live w k with
  | Some (Entry (RString s) t) =>
      match redis_int s with
      | Some z =>
          if (z <? int64_max)%Z
          then (Ok (z + 1),
                record (INCR k) (Int (z + 1)) (put k (Entry (RString (print_int (z + 1))) t) w))
          else (Raise ResponseError, record (INCR k) Error w)
      | None => (Raise ResponseError, record (INCR k) Error w)
      end
  | Some (Entry (RList _) _) => (Raise ResponseError, record (INCR k) Error w)
  | None => (Ok 1, record (INCR k) (Int 1) (put k (Entry (RString (print_int 1)) None) w))
  end.
Proof.
  intros Hq. unfold redis_incr, integer_reply.
  rewrite execute_command_quiet by done. simpl.
  destruct (live w k) as [[[s|l] t]|]; try done.
  destruct (redis_int s) as [z|]; [|done]. by destruct (z <? int64_max)%Z.
Qed.

Lemma redis_llen_quiet (k : string) (w : World) :
  quiet w ->
  redis_llen k w =
  match live w k with
  | Some (Entry (RList l) _) =>
      (Ok (Z.of_nat (length l)), record (LLEN k) (Int (Z.of_nat (length l))) w)
  | Some (Entry (RString _) _) => (Raise ResponseError, record (LLEN k) Error w)
  | None => (Ok 0, record (LLEN k) (Int 0) w)
  end.
Proof.
  intros Hq. unfold redis_llen, integer_reply.
  rewrite execute_command_quiet by done. simpl.
  by destruct (live w k) as [[[s|l] t]|].
Qed.

Lemma omap_id_Some {A} (l : list A) : omap id (Some <$> l) = l.
Proof. induction l as [|x l IH]; csimpl; [done|]. by rewrite IH. Qed.

Lemma redis_lrange_quiet (k : string) (start stop : Z) (w : World) :
  quiet w ->
  redis_lrange k start stop w =
  match live w k with
  | Some (Entry (RList l) _) =>
      (Ok (lrange l start stop),
       record (LRANGE k start stop) (Multi (Some <$> lrange l start stop)) w)
  | Some (Entry (RString _) _) => (Raise ResponseError, record (LRANGE k start stop) Error w)
  | None => (Ok [], record (LRANGE k start stop) (Multi []) w)
  end.
Proof.
  intros Hq. unfold redis_lrange, multi_reply, bind.
  rewrite execute_command_quiet by done. simpl.
  destruct (live w k) as [[[s|l] t]|]; try done.
  unfold ret. by rewrite omap_id_Some.
Qed.

Lemma redis_mget_quiet (ks : list string) (w : World) :
  quiet w -> ks <> [] ->
  redis_mget ks w = (Ok (bulk_of w <$> ks), record (MGET ks) (Multi (bulk_of w <$> ks)) w).
Proof.
  intros Hq Hks. destruct ks as [|k ks]; [done|].
  unfold redis_mget, multi_reply. by rewrite execute_command_quiet.
Qed.

Lemma redis_delete_quiet (k : string) (w : World) :
  quiet w ->
  exists z, redis_delete k w = (Ok z, record (DEL k) (Int z) (drop_key k w)).
Proof.
  intros Hq. unfold redis_delete, integer_reply.
  rewrite execute_command_quiet by done. simpl.
  destruct (live w k); eauto.
Qed.

Lemma redis_keys_quiet (pattern : string) (w : World) :
  quiet w ->
  redis_keys pattern w =
  (Ok (live_keys w pattern), record (KEYS pattern) (Multi (Some <$> live_keys w pattern)) w).
Proof.
  intros Hq. unfold redis_keys, multi_reply, bind.
  rewrite execute_command_quiet by done. simpl.
  unfold ret. by rewrite omap_id_Some.
Qed.

Section Properties.

Context `{Models} {lossless : Lossless} (self : RedisStorage).

Lemma bind_run {A B} (m : io A) (f : A -> io B) (w : World) :
  bind m f w =
  match m w with
  | (Ok a, w') => f a w'
  | (Raise e, w') => (Raise e, w')
  end.
Proof. reflexivity. Qed.

Ltac live_step :=
  repeat first
    [ rewrite live_record
    | rewrite live_put_eq by first [done | assumption]
    | rewrite live_put_ne by done ].

Lemma write_loop_free (n : nat) (kr : string) (req : Request) (ws : bool) (w : World) :
  quiet w -> live w kr = None ->
  write_loop (S n) kr req ws w =
  (Ok (true, req),
   record (SETNX kr (Request_dump req)) (Int 1)
     (put kr (Entry (RString (Request_dump req)) None) w)).
Proof.
  intros Hq Hfree. simpl. unfold bind.
  rewrite redis_setnx_quiet by done. by rewrite Hfree.
Qed.

Lemma write_loop_taken (n : nat) (kr : string) :
  forall (req : Request) (w : World),
    quiet w -> is_Some (live w kr) ->
    exists req' w',
      write_loop n kr req false w = (Ok (false, req'), w') /\
      store w' = store w /\ clock w' = clock w /\ quiet w' /\
      drawn w' = (drawn w + n)%nat.
Proof.
  induction n as [|n IH]; intros req w Hq [e He].
  - exists req, w. simpl. unfold ret. repeat split; [done|lia].
  - simpl. unfold bind at 1. rewrite redis_setnx_quiet by done. rewrite He.
    unfold bind, tinyid.
    set (w1 := advance (record (SETNX kr (Request_dump req)) (Int 0) w)).
    set (req1 := set_id _ req).
    destruct (IH req1 w1) as (req' & w' & Hrun & Hs & Hc & Hq' & Hd).
    + done.
    + exists e. exact He.
    + exists req', w'. rewrite Hrun. repeat split; try done.
      rewrite Hd. simpl. lia.
Qed.

(** A call of [create_request] in a quiet world, case by case: the record
    key is taken; the index key holds a string; the counter is no integer
    that can grow; or the call goes through. *)
Lemma create_request_quiet (bin : Bin) (input : string) (w : World) :
  quiet w ->
  let rid := entropy (drawn w) 6 in
  let kr := _key_request self (Bin_name bin) rid in
  let kl := _key_request_list self (Bin_name bin) in
  let ck := _request_count_key self in
  let t := Bin_created bin + bin_ttl self in
  exists res w',
    create_request self bin input w = (res, w') /\ quiet w' /\ clock w' = clock w /\
    (forall e, res = Raise e -> store w' !! ck = store w !! ck) /\
    match live w kr with
    | Some _ => res = Raise RuntimeError /\ store w' = store w
    | None =>
        if index_ok w kl then
          match counter w ck with
          | Some z =>
              if (z <? int64_max)%Z then
                res = Ok None /\ drawn w' = S (drawn w) /\
                store w' =
                  <[ck := Entry (RString (print_int (z + 1))) (counter_expiry w ck)]>
                    (<[kl := Entry (RList (listing w kl ++ [rid])) (Some (t + 1))]>
                       (<[kr := Entry (RString (Request_dump (MkRequest rid input))) (Some (t + 2))]>
                          (store w)))
              else res = Raise ResponseError
          | None => res = Raise ResponseError
          end
        else res = Raise ResponseError
    end.
Proof.
  intros Hq rid kr kl ck t.
  unfold create_request, Request_new.
  unfold bind at 1. unfold bind at 1. unfold tinyid, ret.
  change (entropy (drawn w) 6) with rid.
  change (_key_request self (Bin_name bin) (Request_id (MkRequest rid input))) with kr.
  fold kl ck.
  set (w0 := advance w).
  assert (Hq0 : quiet w0) by done.
  assert (Hl0 : forall k, live w0 k = live w k) by done.
  unfold bind at 1.
  destruct (live w kr) as [e|] eqn:Hkr.
  - destruct (write_loop_taken 50 kr (MkRequest rid input) w0 Hq0) as
      (req' & w' & Hrun & Hs & Hc & Hq' & Hd).
    { rewrite Hl0, Hkr. by eexists. }
    rewrite Hrun. simpl. unfold raise. exists (Raise RuntimeError), w'.
    by rewrite Hs.
  - rewrite write_loop_free by (by rewrite ?Hl0). cbn [fst snd negb Request_id].
    assert (Hrl : kr <> kl) by (intros E; symmetry in E; by apply key_list_request in E).
    assert (Hrc : kr <> ck) by (intros E; symmetry in E; by apply key_count_request in E).
    assert (Hlc : kl <> ck) by (intros E; symmetry in E; by apply key_count_list in E).
    assert (Hz0 : redis_int (print_int 0) = Some 0) by (by apply redis_int_print).
    set (r := MkRequest rid input).
    unfold index_ok, counter, counter_expiry, listing.
    destruct (live w kl) as [[[s|l] tl]|] eqn:Hkl;
      destruct (live w ck) as [[[sc|lc] tc]|] eqn:Hck;
      try (destruct (redis_int sc) as [z|] eqn:Hz;
           [destruct (z <? int64_max)%Z eqn:Hmax|]);
      try (pose proof (live_Some_is_live _ _ _ Hkl) as [_ Hlive]);
      try (pose proof (live_Some_is_live _ _ _ Hck) as [_ Hclive]).
    all: rewrite bind_run, redis_expireat_quiet by done; live_step.
    all: rewrite bind_run, redis_rpush_quiet by done; live_step; rewrite Hl0, Hkl.
    all: try (eexists _, _; split; [reflexivity|]; do 2 (split; [done|]);
              split; [|done]; intros _ _; subst w0;
              cbn [store record put set_store advance];
              by rewrite !lookup_insert_ne).
    all: rewrite bind_run, redis_expireat_quiet by done; live_step.
    all: rewrite bind_run, redis_setnx_quiet by done; live_step; rewrite Hl0, Hck.
    all: rewrite bind_run, redis_incr_quiet by done; live_step; rewrite ?Hl0, ?Hck.
    all: cbn [value expiry]; rewrite ?Hz0, ?Hz, ?Hmax.
    all: try (eexists _, _; split; [reflexivity|]; do 2 (split; [done|]);
              split; [|done]; intros _ _; subst w0;
              cbn [store record put set_store advance];
              by rewrite !lookup_insert_ne).
    all: try (change (0 <? int64_max)%Z with true; cbv iota).
    all: eexists _, _; split; [reflexivity|]; do 2 (split; [done|]);
      split; [done|]; do 2 (split; [done|]).
    all: subst w0; cbn [store record put set_store advance].
    all: by rewrite !insert_insert_eq.
Qed.

(** ** The commands a call sends, whatever happens in between *)

Lemma log_absorb (w : World) : log (absorb w) = log w.
Proof.
  unfold absorb. destruct (pending w) as [|i rest]; [done|]. by destruct i.
Qed.

Lemma log_serve (c : command) (w : World) : log (serve c w).2 = log w.
Proof.
  destruct c; simpl; try done;
    repeat match goal with
           | |- context [match ?x with _ => _ end] => destruct x
           end; done.
Qed.

Lemma execute_command_log (c : command) (w : World) :
  exists r w', execute_command c w = (r, w') /\ log w' = log w ++ [(c, r)].
Proof.
  unfold execute_command.
  pose proof (log_serve c (absorb w)) as Hlog.
  destruct (serve c (absorb w)) as [r w']. simpl in Hlog.
  exists r, (record c r w'). split; [done|].
  simpl. by rewrite Hlog, log_absorb.
Qed.

Lemma integer_reply_log (c : command) (w : World) :
  exists res r w',
    integer_reply c w = (res, w') /\ log w' = log w ++ [(c, r)] /\
    (res = Raise ResponseError \/ exists z, res = Ok z /\ r = Int z).
Proof.
  unfold integer_reply.
  destruct (execute_command_log c w) as (r & w' & -> & Hlog).
  destruct r; eauto 10.
Qed.

Lemma bool_reply_log (c : command) (w : World) :
  exists res r w',
    bind (integer_reply c) (fun z => ret (bool_decide (z = 1))) w = (res, w') /\
    log w' = log w ++ [(c, r)] /\
    (res = Raise ResponseError \/ exists b : bool, res = Ok b).
Proof.
  rewrite bind_run.
  destruct (integer_reply_log c w) as (res & r & w' & -> & Hlog & [->|(z & -> & ->)]);
    unfold ret; eauto 10.
Qed.

(** The conditional write is answered by 0 or by 1 and never refused. *)
Lemma redis_setnx_log (k v : string) (w : World) :
  exists (b : bool) w',
    redis_setnx k v w = (Ok b, w') /\
    log w' = log w ++ [(SETNX k v, Int (if b then 1 else 0))].
Proof.
  unfold redis_setnx, integer_reply. rewrite bind_run.
  unfold execute_command.
  pose proof (log_serve (SETNX k v) (absorb w)) as Hlog.
  pose proof (log_absorb w) as Habs.
  simpl in *. destruct (live (absorb w) k); simpl in *.
  - exists false. eexists. split; [reflexivity|]. simpl. by rewrite Habs.
  - exists true. eexists. split; [reflexivity|]. simpl. by rewrite Habs.
Qed.

(** The loop sends nothing but conditional writes to the one key: refused
    ones, ended either by the first accepted one or by the bound. *)
Lemma write_loop_log (kr : string) (n : nat) :
  forall (req : Request) (w : World),
    exists (fails : list (command * reply)) (b : bool) (req' : Request) (w' : World),
      write_loop n kr req false w = (Ok (b, req'), w') /\
      Forall (failed_write kr) fails /\
      if b
      then (length fails < n)%nat /\
           exists v, log w' = log w ++ fails ++ [(SETNX kr v, Int 1)]
      else length fails = n /\ log w' = log w ++ fails.
Proof.
  induction n as [|n IH]; intros req w.
  - exists [], false, req, w. simpl. unfold ret.
    repeat split; [constructor|]. by rewrite app_nil_r.
  - simpl. rewrite bind_run.
    destruct (redis_setnx_log kr (Request_dump req) w) as (b & w1 & -> & Hlog1).
    destruct b.
    + exists [], true, req, w1. unfold ret. repeat split; [constructor|simpl; lia|].
      by exists (Request_dump req).
    + rewrite bind_run. unfold tinyid.
      set (w2 := advance w1). set (req2 := set_id _ req).
      destruct (IH req2 w2) as (fails & b & req' & w' & -> & Hfails & Hshape).
      exists ((SETNX kr (Request_dump req), Int 0) :: fails), b, req', w'.
      split; [done|]. split.
      { constructor; [by eexists|done]. }
      assert (Hlog2 : log w2 = log w ++ [(SETNX kr (Request_dump req), Int 0)]) by done.
      destruct b.
      * destruct Hshape as [Hlen [v Hlog]]. split; [simpl; lia|].
        exists v. rewrite Hlog, Hlog2. by rewrite <- !app_assoc.
      * destruct Hshape as [Hlen Hlog]. split; [simpl; lia|].
        rewrite Hlog, Hlog2. by rewrite <- !app_assoc.
Qed.

(** The shape of what a call sends, in any world at all. *)
Lemma create_request_trace (bin : Bin) (input : string) (w : World) :
  let kr := _key_request self (Bin_name bin) (entropy (drawn w) 6) in
  exists res w' fails rest,
    create_request self bin input w = (res, w') /\
    log w' = log w ++ fails ++ rest /\
    Forall (failed_write kr) fails /\
    ((res = Raise RuntimeError /\ length fails = 50%nat /\ rest = []) \/
     ((res = Ok None \/ res = Raise ResponseError) /\ (length fails < 50)%nat /\
      exists v tail,
        rest = (SETNX kr v, Int 1) :: tail /\ Forall (other_than_write kr) tail)).
Proof.
  intros kr. unfold create_request, Request_new.
  rewrite bind_run. rewrite bind_run. unfold tinyid, ret.
  change (_key_request self (Bin_name bin)
            (Request_id (MkRequest (entropy (drawn w) 6) input))) with kr.
  set (w0 := advance w). rewrite bind_run.
  destruct (write_loop_log kr 50 (MkRequest (entropy (drawn w) 6) input) w0)
    as (fails & b & req' & w1 & -> & Hfails & Hshape).
  cbn [fst snd]. change (log w0) with (log w) in Hshape.
  destruct b; cbn [negb].
  2:{ destruct Hshape as [Hlen Hlog]. unfold raise.
      exists (Raise RuntimeError), w1, fails, [].
      rewrite app_nil_r. split; [done|]. split; [done|]. split; [done|]. by left. }
  destruct Hshape as [Hlen [v Hlog1]].
  assert (Hck : _request_count_key self <> kr) by apply key_count_request.
  unfold redis_expireat, redis_setnx, redis_rpush, redis_incr.
  rewrite bind_run.
  destruct (bool_reply_log (EXPIREAT kr (Bin_created bin + bin_ttl self + 2)) w1)
    as (res2 & r2 & w2 & -> & Hlog2 & Hres2).
  assert (Hshape : forall (res : result (option Request)) w' tail,
             log w' = (log w1 ++ tail)%list -> Forall (other_than_write kr) tail ->
             res = Ok None \/ res = Raise ResponseError ->
             exists res0 w'0 fails0 rest,
               (res, w') = (res0, w'0) /\
               log w'0 = log w ++ fails0 ++ rest /\
               Forall (failed_write kr) fails0 /\
               ((res0 = Raise RuntimeError /\ length fails0 = 50%nat /\ rest = []) \/
                ((res0 = Ok None \/ res0 = Raise ResponseError) /\
                 (length fails0 < 50)%nat /\
                 exists v0 tail0,
                   rest = (SETNX kr v0, Int 1) :: tail0 /\
                   Forall (other_than_write kr) tail0))).
  { intros res w' tail Hlog Htail Hres.
    exists res, w', fails, ((SETNX kr v, Int 1) :: tail).
    split; [done|]. split.
    { rewrite Hlog, Hlog1. by rewrite <- !app_assoc. }
    split; [done|]. right. eauto 10. }
  assert (Hev : forall c r, (forall v', c <> SETNX kr v') -> other_than_write kr (c, r))
    by (intros c r Hc v'; apply Hc).
  destruct Hres2 as [->|[b2 ->]].
  { eapply Hshape; [exact Hlog2| |by right].
    repeat constructor. by apply Hev. }
  rewrite bind_run.
  destruct (integer_reply_log (RPUSH (_key_request_list self (Bin_name bin))
                                 (Request_id req')) w2)
    as (res3 & r3 & w3 & -> & Hlog3 & Hres3).
  rewrite Hlog2, <- app_assoc in Hlog3.
  destruct Hres3 as [->|(z3 & -> & _)].
  { eapply Hshape; [exact Hlog3| |by right].
    repeat constructor; by apply Hev. }
  rewrite bind_run.
  destruct (bool_reply_log (EXPIREAT (_key_request_list self (Bin_name bin))
                              (Bin_created bin + bin_ttl self + 1)) w3)
    as (res4 & r4 & w4 & -> & Hlog4 & Hres4).
  rewrite Hlog3, <- app_assoc in Hlog4.
  destruct Hres4 as [->|[b4 ->]].
  { eapply Hshape; [exact Hlog4| |by right].
    repeat constructor; by apply Hev. }
  rewrite bind_run.
  destruct (bool_reply_log (SETNX (_request_count_key self) (print_int 0)) w4)
    as (res5 & r5 & w5 & -> & Hlog5 & Hres5).
  rewrite Hlog4, <- app_assoc in Hlog5.
  assert (Hev5 : forall v', SETNX (_request_count_key self) (print_int 0) <> SETNX kr v')
    by (intros v' [= E _]; by apply Hck).
  destruct Hres5 as [->|[b5 ->]].
  { eapply Hshape; [exact Hlog5| |by right].
    repeat constructor; by apply Hev. }
  rewrite bind_run.
  destruct (integer_reply_log (INCR (_request_count_key self)) w5)
    as (res6 & r6 & w6 & -> & Hlog6 & Hres6).
  rewrite Hlog5, <- app_assoc in Hlog6.
  destruct Hres6 as [->|(z6 & -> & _)].
  { eapply Hshape; [exact Hlog6| |by right].
    repeat constructor; by apply Hev. }
  eapply Hshape; [exact Hlog6| |by left].
  repeat constructor; by apply Hev.
Qed.

(** C2. Whatever the store answers and whatever happens between two
    commands, [create_request] sends its conditional writes to one key and
    either all 50 of them are refused, the call then raises the fatal
    [RuntimeError] and has sent nothing else (no append to the index, no
    increment of the counter); or fewer than 50 are refused before the first
    accepted one, after which no further conditional write goes to that
    key. *)
Theorem create_request_retry_budget (bin : Bin) (input : string) (w : World) :
  let kr := _key_request self (Bin_name bin) (entropy (drawn w) 6) in
  exists res w' fails rest,
    create_request self bin input w = (res, w') /\
    log w' = log w ++ fails ++ rest /\
    Forall (failed_write kr) fails /\
    ((res = Raise RuntimeError /\ length fails = 50%nat /\ rest = []) \/
     ((res = Ok None \/ res = Raise ResponseError) /\ (length fails < 50)%nat /\
      exists v tail,
        rest = (SETNX kr v, Int 1) :: tail /\ Forall (other_than_write kr) tail)).
Proof. apply create_request_trace. Qed.

(** ** [create_bin] and [lookup_bin] in a quiet world *)

Lemma create_bin_quiet (private : bool) (w : World) :
  quiet w ->
  let bin := MkBin (entropy (drawn w) 8) (clock w) private [] in
  exists w',
    create_bin self private w = (Ok bin, w') /\ quiet w' /\ clock w' = clock w /\
    drawn w' = S (drawn w) /\
    store w' =
      <[_key_bin self (Bin_name bin) :=
          Entry (RString (Bin_dump bin)) (Some (Bin_created bin + bin_ttl self))]> (store w).
Proof.
  intros Hq bin. unfold create_bin, Bin_new, now.
  rewrite bind_run. rewrite bind_run. rewrite bind_run. unfold tinyid, ret.
  fold bin. set (w0 := advance w).
  rewrite bind_run, redis_set_quiet by done.
  rewrite bind_run, redis_expireat_quiet by done. live_step.
  eexists. split; [reflexivity|]. do 3 (split; [done|]).
  subst w0. cbn [store record put set_store advance value].
  by rewrite insert_insert_eq.
Qed.

Lemma lrange_all (l : list string) :
  l <> [] -> lrange l 0 (Z.of_nat (length l) - 1) = l.
Proof.
  intros Hl. unfold lrange.
  assert (0 < Z.of_nat (length l)) by (destruct l; [done|simpl; lia]).
  change (0 <? 0)%Z with false. cbv iota.
  destruct (Z.of_nat (length l) - 1 <? 0)%Z eqn:E1; [apply Z.ltb_lt in E1; lia|].
  rewrite Z.min_id.
  destruct (Z.of_nat (length l) - 1 <? 0)%Z eqn:E2; [discriminate|].
  change (Z.to_nat 0) with 0%nat. rewrite drop_0.
  replace (Z.to_nat (Z.of_nat (length l) - 1 - 0 + 1)) with (length l) by lia.
  apply firstn_all.
Qed.

Lemma py_map_raises {A B} (f : A -> result B) (l : list A) (e : exn) :
  (forall x e', f x = Raise e' -> e' = TypeError) ->
  py_map f l = Raise e -> e = TypeError.
Proof.
  intros Hf. induction l as [|x l IH]; simpl; [done|].
  destruct (f x) as [y|e'] eqn:Hx.
  - destruct (py_map f l) as [ys|e'']; [done|]. intros [= <-]. by apply IH.
  - intros [= <-]. by apply (Hf x).
Qed.

Lemma Request_load_raises (data : option string) (e : exn) :
  Request_load data = Raise e -> e = TypeError.
Proof.
  unfold Request_load. destruct data as [s|]; [|by intros [= <-]].
  destruct (unpack_request s); [done|by intros [= <-]].
Qed.

(** What [lookup_bin] returns and does to the store, case by case. *)
Lemma lookup_bin_quiet (name : string) (w : World) :
  quiet w ->
  let kb := _key_bin self name in
  let kl := _key_request_list self name in
  exists res w',
    lookup_bin self name w = (res, w') /\ quiet w' /\ clock w' = clock w /\
    match live w kb with
    | None => res = Raise KeyError /\ store w' = delete kb (store w)
    | Some (Entry (RList _) _) => res = Raise ResponseError
    | Some (Entry (RString s) _) =>
        match unpack_bin s with
        | None => res = Raise KeyError /\ store w' = delete kb (store w)
        | Some b =>
            match live w kl with
            | None => res = Ok b /\ store w' = store w
            | Some (Entry (RString _) _) => res = Raise ResponseError
            | Some (Entry (RList []) _) => res = Ok b /\ store w' = store w
            | Some (Entry (RList l) _) =>
                match py_map Request_load (bulk_of w <$> map (_key_request self name) l) with
                | Ok rs => res = Ok (set_requests (rev rs) b) /\ store w' = store w
                | Raise _ => res = Raise KeyError /\ store w' = delete kb (store w)
                end
            end
        end
    end.
Proof.
  intros Hq kb kl. unfold lookup_bin. fold kb kl.
  rewrite bind_run, redis_get_quiet by done.
  destruct (live w kb) as [[[s|lb] tb]|] eqn:Hkb.
  - (* a string under the details key *)
    unfold try_except, lift. rewrite bind_run. unfold Bin_load.
    destruct (unpack_bin s) as [b|] eqn:Hb.
    + rewrite bind_run, redis_llen_quiet by done. live_step.
      destruct (live w kl) as [[[sl|l] tl]|] eqn:Hkl.
      * eexists _, _. split; [reflexivity|]. done.
      * destruct l as [|x l].
        { simpl. eexists _, _. split; [reflexivity|]. done. }
        set (l' := x :: l).
        assert (Hpos : (0 <? Z.of_nat (length l'))%Z = true)
          by (apply Z.ltb_lt; simpl; lia).
        rewrite Hpos.
        rewrite bind_run, redis_lrange_quiet by done. live_step. rewrite Hkl.
        rewrite lrange_all by done.
        rewrite bind_run, redis_mget_quiet by done.
        assert (Hbulk : forall (ks : list string) v0,
                   bulk_of (record (LRANGE kl 0 (Z.of_nat (length l') - 1)) v0
                              (record (LLEN kl) (Int (Z.of_nat (length l')))
                                 (record (GET kb) (Bulk (Some s)) w))) <$> ks
                   = bulk_of w <$> ks) by (intros; reflexivity).
        rewrite Hbulk. rewrite bind_run.
        destruct (py_map Request_load (bulk_of w <$> map (_key_request self name) l'))
          as [rs|e] eqn:Hmap.
        { unfold ret. eexists _, _. split; [reflexivity|]. done. }
        apply py_map_raises in Hmap as ->; [|intros ? ?; apply Request_load_raises].
        rewrite bool_decide_eq_true_2 by done.
        rewrite bind_run.
        edestruct redis_delete_quiet as [z ->]; [|eexists _, _; split; [reflexivity|done]].
        done.
      * simpl. eexists _, _. split; [reflexivity|]. done.
    + rewrite bool_decide_eq_true_2 by done. rewrite bind_run.
      edestruct redis_delete_quiet as [z ->]; [|eexists _, _; split; [reflexivity|done]].
      done.
  - eexists _, _. split; [reflexivity|]. done.
  - unfold try_except, lift. rewrite bind_run. unfold Bin_load.
    rewrite bool_decide_eq_true_2 by done. rewrite bind_run.
    edestruct redis_delete_quiet as [z ->]; [|eexists _, _; split; [reflexivity|done]].
    done.
Qed.

(** ** Successful calls of [create_request] *)

Lemma create_request_ok (bin : Bin) (input : string) (w w' : World)
    (v : option Request) :
  quiet w ->
  create_request self bin input w = (Ok v, w') ->
  exists z,
    v = None /\
    live w (_key_request self (Bin_name bin) (entropy (drawn w) 6)) = None /\
    index_ok w (_key_request_list self (Bin_name bin)) = true /\
    counter w (_request_count_key self) = Some z /\ z < int64_max /\
    quiet w' /\ clock w' = clock w /\ drawn w' = S (drawn w) /\
    store w' = after_request self bin input z w.
Proof.
  intros Hq Hrun.
  destruct (create_request_quiet bin input w Hq) as (res & w'' & E & Hq' & Hc & _ & Hcase).
  rewrite Hrun in E. injection E as <- <-.
  destruct (live w _) as [e|]; [by destruct Hcase|].
  destruct (index_ok w _); [|done].
  destruct (counter w _) as [z|]; [|done].
  destruct (z <? int64_max)%Z eqn:Hz; [|done].
  destruct Hcase as ([= <-] & Hd & Hs). apply Z.ltb_lt in Hz.
  exists z. done.
Qed.

Lemma create_request_succeeds (bin : Bin) (input : string) (w : World) (z : Z) :
  quiet w ->
  live w (_key_request self (Bin_name bin) (entropy (drawn w) 6)) = None ->
  index_ok w (_key_request_list self (Bin_name bin)) = true ->
  counter w (_request_count_key self) = Some z -> z < int64_max ->
  exists w',
    create_request self bin input w = (Ok None, w') /\
    quiet w' /\ clock w' = clock w /\ drawn w' = S (drawn w) /\
    store w' = after_request self bin input z w.
Proof.
  intros Hq Hkr Hkl Hck Hz.
  destruct (create_request_quiet bin input w Hq) as (res & w' & E & Hq' & Hc & _ & Hcase).
  rewrite Hkr, Hkl, Hck in Hcase. apply Z.ltb_lt in Hz. rewrite Hz in Hcase.
  destruct Hcase as (-> & Hd & Hs). by exists w'.
Qed.

Lemma create_request_taken (bin : Bin) (input : string) (w : World) :
  quiet w ->
  is_Some (live w (_key_request self (Bin_name bin) (entropy (drawn w) 6))) ->
  exists w',
    create_request self bin input w = (Raise RuntimeError, w') /\
    quiet w' /\ clock w' = clock w /\ store w' = store w.
Proof.
  intros Hq [e Hkr].
  destruct (create_request_quiet bin input w Hq) as (res & w' & E & Hq' & Hc & _ & Hcase).
  rewrite Hkr in Hcase. destruct Hcase as [-> Hs]. by exists w'.
Qed.

Lemma after_request_record (bin : Bin) (input : string) (z : Z) (w : World) :
  after_request self bin input z w !! _key_request self (Bin_name bin) (entropy (drawn w) 6) =
  Some (Entry (RString (Request_dump (MkRequest (entropy (drawn w) 6) input)))
          (Some (Bin_created bin + bin_ttl self + 2))).
Proof.
  unfold after_request.
  rewrite lookup_insert_ne by apply key_count_request.
  rewrite lookup_insert_ne by apply key_list_request.
  by rewrite lookup_insert_eq.
Qed.

Lemma after_request_index (bin : Bin) (input : string) (z : Z) (w : World) :
  after_request self bin input z w !! _key_request_list self (Bin_name bin) =
  Some (Entry (RList (listing w (_key_request_list self (Bin_name bin))
                        ++ [entropy (drawn w) 6]))
          (Some (Bin_created bin + bin_ttl self + 1))).
Proof.
  unfold after_request.
  rewrite lookup_insert_ne by apply key_count_list.
  by rewrite lookup_insert_eq.
Qed.

Lemma after_request_counter (bin : Bin) (input : string) (z : Z) (w : World) :
  after_request self bin input z w !! _request_count_key self =
  Some (Entry (RString (print_int (z + 1))) (counter_expiry w (_request_count_key self))).
Proof. unfold after_request. by rewrite lookup_insert_eq. Qed.

Lemma after_request_other (bin : Bin) (input : string) (z : Z) (w : World) (k : string) :
  k <> _key_request self (Bin_name bin) (entropy (drawn w) 6) ->
  k <> _key_request_list self (Bin_name bin) ->
  k <> _request_count_key self ->
  after_request self bin input z w !! k = store w !! k.
Proof.
  intros H1 H2 H3. unfold after_request.
  by rewrite !lookup_insert_ne.
Qed.

(** ** Staggered expiration *)

(** C3. For a bin made by [create_bin] (creation time [created], retention
    [bin_ttl]) and any later successful [create_request] on it, with nothing
    interfering during the two calls: the details key is set to expire at
    [created + ttl], the index list at [created + ttl + 1] and the record of
    the request at [created + ttl + 2]; hence the record outlives the list
    and the list outlives the details, by at least one second each. *)
Theorem expiration_staggering (private : bool) (input : string)
    (w w1 w2 w3 : World) (bin : Bin) (v : option Request) :
  quiet w -> create_bin self private w = (Ok bin, w1) ->
  quiet w2 -> create_request self bin input w2 = (Ok v, w3) ->
  let t := Bin_created bin + bin_ttl self in
  let kb := _key_bin self (Bin_name bin) in
  let kl := _key_request_list self (Bin_name bin) in
  let kr := _key_request self (Bin_name bin) (entropy (drawn w2) 6) in
  Bin_created bin = clock w /\
  expires_at w1 kb = Some t /\
  expires_at w3 kl = Some (t + 1) /\
  expires_at w3 kr = Some (t + 2) /\
  (exists s, value <$> store w3 !! kr = Some (RString s)) /\
  forall td tl tr,
    expires_at w1 kb = Some td -> expires_at w3 kl = Some tl ->
    expires_at w3 kr = Some tr ->
    td + 1 <= tl /\ tl + 1 <= tr.
Proof.
  intros Hq Hbin Hq2 Hreq t kb kl kr.
  destruct (create_bin_quiet private w Hq) as (w1' & E & _ & _ & _ & Hs1).
  rewrite Hbin in E. injection E as E1 E2. subst w1'.
  apply create_request_ok in Hreq as (z & _ & _ & _ & _ & _ & _ & _ & _ & Hs3); [|done].
  assert (Hb : expires_at w1 kb = Some t).
  { unfold expires_at, kb, t. rewrite Hs1, E1. by rewrite lookup_insert_eq. }
  assert (Hl : expires_at w3 kl = Some (t + 1)).
  { unfold expires_at, kl. by rewrite Hs3, after_request_index. }
  assert (Hr : expires_at w3 kr = Some (t + 2)).
  { unfold expires_at, kr. by rewrite Hs3, after_request_record. }
  split; [by rewrite E1|]. do 3 (split; [done|]). split.
  { rewrite Hs3. unfold kr. rewrite after_request_record. by eexists. }
  intros td tl tr. rewrite Hb, Hl, Hr. intros [= <-] [= <-] [= <-]. lia.
Qed.

(** ** Reading a bin *)

Lemma live_after (w w' : World) (k k' : string) (e : entry) :
  store w' = <[k := e]> (store w) -> clock w' = clock w ->
  live w' k' =
  if decide (k = k') then (if is_live (clock w) e then Some e else None)
  else live w k'.
Proof.
  intros Hs Hc. unfold live. rewrite Hs, Hc, lookup_insert.
  by destruct (decide (k = k')).
Qed.

(** C8. For every [bin_ttl > 0], with nothing interfering: when
    [create_bin] has returned a bin whose name is fresh (no index list
    lived under it), [lookup_bin] of that name right after succeeds with the
    same name, creation time and private flag and with no requests. *)
Theorem create_bin_then_lookup (private : bool) (w w1 : World) (bin : Bin) :
  quiet w -> 0 < bin_ttl self ->
  create_bin self private w = (Ok bin, w1) ->
  live w (_key_request_list self (Bin_name bin)) = None ->
  exists bin' w2,
    lookup_bin self (Bin_name bin) w1 = (Ok bin', w2) /\
    Bin_name bin' = Bin_name bin /\
    Bin_created bin' = Bin_created bin /\
    Bin_private bin' = Bin_private bin /\
    Bin_requests bin' = [].
Proof.
  intros Hq Httl Hmade Hfresh.
  destruct (create_bin_quiet private w Hq) as (w1' & Hrun & Hq1 & Hc1 & _ & Hs1).
  rewrite Hmade in Hrun. injection Hrun as Hbin <-.
  rewrite <- Hbin in Hs1. assert (Hcreated : Bin_created bin = clock w) by (by rewrite Hbin).
  clear Hbin.
  destruct (lookup_bin_quiet (Bin_name bin) w1 Hq1) as (res & w2 & Hlook & _ & _ & Hcase).
  rewrite (live_after w w1 _ _ _ Hs1 Hc1), decide_True in Hcase by done.
  assert (Hlive : is_live (clock w)
            (Entry (RString (Bin_dump bin)) (Some (Bin_created bin + bin_ttl self))) = true).
  { unfold is_live. simpl. apply Z.ltb_lt. lia. }
  rewrite Hlive in Hcase. unfold Bin_dump in Hcase. rewrite unpack_pack_bin in Hcase.
  rewrite (live_after w w1 _ _ _ Hs1 Hc1), decide_False in Hcase by apply key_bin_list.
  simpl Bin_name in Hcase. rewrite Hfresh in Hcase. destruct Hcase as [-> _].
  exists (set_requests [] bin), w2. done.
Qed.

(** C5. With nothing interfering: when the details key of a name is absent,
    or holds a string that does not deserialise, [lookup_bin] raises
    [KeyError] (NotFound) and leaves no details key behind, and a second
    [lookup_bin] of the name raises [KeyError] again. *)
Theorem lookup_bin_not_found (name : string) (w : World) :
  quiet w ->
  live w (_key_bin self name) = None \/
  (exists s t, live w (_key_bin self name) = Some (Entry (RString s) t) /\
               unpack_bin s = None) ->
  exists w1 w2,
    lookup_bin self name w = (Raise KeyError, w1) /\
    store w1 = delete (_key_bin self name) (store w) /\
    live w1 (_key_bin self name) = None /\
    lookup_bin self name w1 = (Raise KeyError, w2).
Proof.
  intros Hq Hbad.
  destruct (lookup_bin_quiet name w Hq) as (res & w1 & Hlook & Hq1 & Hc1 & Hcase).
  assert (Hres : res = Raise KeyError /\ store w1 = delete (_key_bin self name) (store w)).
  { destruct Hbad as [Habs|(s & t & Hs & Hbad)].
    - by rewrite Habs in Hcase.
    - by rewrite Hs, Hbad in Hcase. }
  destruct Hres as [-> Hs1].
  assert (Hgone : live w1 (_key_bin self name) = None).
  { unfold live. by rewrite Hs1, lookup_delete_eq. }
  destruct (lookup_bin_quiet name w1 Hq1) as (res2 & w2 & Hlook2 & _ & _ & Hcase2).
  rewrite Hgone in Hcase2. destruct Hcase2 as [-> _].
  by exists w1, w2.
Qed.

Lemma py_map_missing (l : list (option string)) :
  None ∈ l -> exists e, py_map Request_load l = Raise e.
Proof.
  induction l as [|x l IH]; intros Hin; [by apply elem_of_nil in Hin|].
  simpl. destruct x as [s|].
  - apply elem_of_cons in Hin as [?|Hin]; [done|].
    destruct (IH Hin) as [e ->].
    destruct (Request_load (Some s)); eauto.
  - simpl. eauto.
Qed.

(** C1, as the code has it. With nothing interfering, for a bin whose
    details record deserialises and whose index list holds at least one
    identifier: when some identifier of the list has no record behind it,
    [lookup_bin] raises [KeyError] (NotFound) and deletes the details key of
    the bin; no entry is skipped. *)
Theorem lookup_bin_missing_record (name : string) (w : World) (s : string) (b : Bin)
    (tb tl : option Z) (l : list string) (x : string) :
  quiet w ->
  live w (_key_bin self name) = Some (Entry (RString s) tb) ->
  unpack_bin s = Some b ->
  live w (_key_request_list self name) = Some (Entry (RList l) tl) ->
  x ∈ l ->
  live w (_key_request self name x) = None ->
  exists w',
    lookup_bin self name w = (Raise KeyError, w') /\
    store w' = delete (_key_bin self name) (store w) /\
    live w' (_key_bin self name) = None.
Proof.
  intros Hq Hkb Hb Hkl Hx Hkx.
  destruct (lookup_bin_quiet name w Hq) as (res & w' & Hlook & _ & _ & Hcase).
  rewrite Hkb, Hb, Hkl in Hcase.
  destruct l as [|y l]; [by apply elem_of_nil in Hx|].
  destruct (py_map_missing (bulk_of w <$> map (_key_request self name) (y :: l)))
    as [e He].
  { apply list_elem_of_fmap. exists (_key_request self name x). split.
    - unfold bulk_of. by rewrite Hkx.
    - apply list_elem_of_In, in_map, list_elem_of_In, Hx. }
  rewrite He in Hcase. destruct Hcase as [-> Hs].
  exists w'. split; [done|]. split; [done|].
  unfold live. by rewrite Hs, lookup_delete_eq.
Qed.

(** ** One request after another *)


Lemma live_of_store (w w' : World) (k : string) :
  store w' !! k = store w !! k -> clock w' = clock w -> live w' k = live w k.
Proof. intros Hs Hc. unfold live. by rewrite Hs, Hc. Qed.

Lemma serving_step (w w' : World) (bin : Bin) (rs : list Request) (input : string)
    (v : option Request) :
  serving self w bin rs ->
  create_request self bin input w = (Ok v, w') ->
  serving self w' bin (rs ++ [MkRequest (entropy (drawn w) 6) input]) /\
  drawn w' = S (drawn w) /\
  live w' (_key_bin self (Bin_name bin)) = live w (_key_bin self (Bin_name bin)).
Proof.
  intros (Hq & Hnow & Hok & Hlist & Hrs) Hrun.
  apply create_request_ok in Hrun
    as (z & _ & Hfree & _ & _ & _ & Hq' & Hc & Hd & Hs); [|done].
  unfold serving.
  set (rid := entropy (drawn w) 6) in *.
  set (kl := _key_request_list self (Bin_name bin)) in *.
  set (kr := _key_request self (Bin_name bin) rid) in *.
  assert (Hkl : live w' kl =
                Some (Entry (RList (listing w kl ++ [rid]))
                        (Some (Bin_created bin + bin_ttl self + 1)))).
  { unfold live. rewrite Hs, Hc. unfold kl. rewrite after_request_index.
    unfold is_live. simpl. by rewrite (proj2 (Z.ltb_lt _ _)) by lia. }
  assert (Hkr : bulk_of w' kr = Some (Request_dump (MkRequest rid input))).
  { unfold bulk_of, live. rewrite Hs, Hc. unfold kr, rid. rewrite after_request_record.
    unfold is_live. simpl. by rewrite (proj2 (Z.ltb_lt _ _)) by lia. }
  split; [|split; [done|]].
  - split; [done|]. split; [by rewrite Hc|]. split; [unfold index_ok; by rewrite Hkl|].
    split.
    { unfold listing at 1. rewrite Hkl, Hlist. by rewrite fmap_app. }
    apply Forall_app. split; [|by repeat constructor].
    eapply Forall_impl; [exact Hrs|]. intros r Hr. simpl in Hr.
    assert (Hne : _key_request self (Bin_name bin) (Request_id r) <> kr).
    { intros E. unfold bulk_of in Hr. rewrite E, Hfree in Hr. discriminate Hr. }
    unfold bulk_of. rewrite (live_of_store w w'); [exact Hr| |done].
    rewrite Hs. apply after_request_other; [done| |].
    + intros E. symmetry in E. by apply key_list_request in E.
    + intros E. symmetry in E. by apply key_count_request in E.
  - apply live_of_store; [|done]. rewrite Hs. apply after_request_other.
    + apply key_bin_request.
    + apply key_bin_list.
    + intros E. symmetry in E. by apply key_count_bin in E.
Qed.

Lemma serving_run (bin : Bin) (inputs : list string) :
  forall (w w' : World) (rs : list Request),
    serving self w bin rs ->
    create_all self ((fun p => (bin, p)) <$> inputs) w = (Ok tt, w') ->
    serving self w' bin (rs ++ made (drawn w) inputs) /\
    live w' (_key_bin self (Bin_name bin)) = live w (_key_bin self (Bin_name bin)).
Proof.
  induction inputs as [|p ps IH]; intros w w' rs Hserv Hrun.
  - simpl in Hrun. injection Hrun as <-. simpl. by rewrite app_nil_r.
  - cbn [fmap list_fmap create_all] in Hrun. rewrite bind_run in Hrun.
    destruct (create_request self bin p w) as [[v|e] w1] eqn:Hcall; [|done].
    destruct (serving_step w w1 bin rs p v Hserv Hcall) as (Hserv1 & Hd & Hkb).
    destruct (IH w1 w' _ Hserv1 Hrun) as [Hserv' Hkb'].
    rewrite Hd in Hserv'. simpl. rewrite <- app_assoc in Hserv'.
    split; [done|]. by rewrite Hkb'.
Qed.

Lemma py_map_loads (w : World) (name : string) (rs : list Request) :
  Forall (fun r => bulk_of w (_key_request self name (Request_id r))
                   = Some (Request_dump r)) rs ->
  py_map Request_load (bulk_of w <$> map (_key_request self name) (Request_id <$> rs))
  = Ok rs.
Proof.
  induction 1 as [|r rs Hr _ IH]; [done|].
  cbn [fmap list_fmap map]. cbn [fmap list_fmap] in IH. simpl py_map.
  rewrite Hr, IH. unfold Request_load, Request_dump.
  by rewrite unpack_pack_request.
Qed.

Lemma lookup_bin_serving (w : World) (bin : Bin) (rs : list Request) (tb : option Z) :
  serving self w bin rs ->
  live w (_key_bin self (Bin_name bin)) = Some (Entry (RString (Bin_dump bin)) tb) ->
  exists w',
    lookup_bin self (Bin_name bin) w = (Ok (set_requests (rev rs) bin), w') /\
    store w' = store w.
Proof.
  intros (Hq & _ & Hok & Hlist & Hrs) Hkb.
  destruct (lookup_bin_quiet (Bin_name bin) w Hq) as (res & w' & Hlook & _ & _ & Hcase).
  rewrite Hkb in Hcase. unfold Bin_dump in Hcase. rewrite unpack_pack_bin in Hcase.
  unfold index_ok, listing in Hok, Hlist.
  destruct (live w (_key_request_list self (Bin_name bin))) as [[[sl|l] tl]|].
  - done.
  - subst l. destruct rs as [|r rs].
    + simpl in Hcase. destruct Hcase as [-> Hs]. by exists w'.
    + cbn [fmap list_fmap] in Hcase.
      pose proof (py_map_loads w (Bin_name bin) (r :: rs) Hrs) as Hload.
      cbn [fmap list_fmap] in Hload. rewrite Hload in Hcase.
      destruct Hcase as [-> Hs]. by exists w'.
  - destruct rs; [|done]. destruct Hcase as [-> Hs]. by exists w'.
Qed.


(** ** The global counter *)

Lemma count_requests_quiet (w : World) :
  quiet w ->
  exists res w',
    count_requests self w = (res, w') /\
    match live w (_request_count_key self) with
    | None => res = Ok 0
    | Some (Entry (RString s) _) =>
        if bool_decide (s = "") then res = Ok 0
        else match py_int s with
             | Some z => res = Ok z
             | None => res = Raise ValueError
             end
    | Some (Entry (RList _) _) => res = Raise ResponseError
    end.
Proof.
  intros Hq. unfold count_requests. rewrite bind_run, redis_get_quiet by done.
  destruct (live w _) as [[[s|l] t]|]; try (eexists _, _; split; [reflexivity|done]).
  destruct (bool_decide (s = "")); [eexists _, _; split; [reflexivity|done]|].
  destruct (py_int s); eexists _, _; (split; [reflexivity|done]).
Qed.

Lemma count_requests_live (w w' : World) :
  quiet w -> quiet w' ->
  live w' (_request_count_key self) = live w (_request_count_key self) ->
  (count_requests self w').1 = (count_requests self w).1.
Proof.
  intros Hq Hq' Hlive.
  destruct (count_requests_quiet w Hq) as (r1 & w1 & -> & Hcase1).
  destruct (count_requests_quiet w' Hq') as (r2 & w2 & -> & Hcase2).
  rewrite Hlive in Hcase2. simpl.
  destruct (live w _) as [[[s|l] t]|]; [| |congruence]; [|congruence].
  destruct (bool_decide (s = "")); [congruence|].
  destruct (py_int s); congruence.
Qed.

Lemma count_requests_counter (w : World) (z : Z) :
  quiet w -> counter w (_request_count_key self) = Some z ->
  (count_requests self w).1 = Ok z.
Proof.
  intros Hq Hz. destruct (count_requests_quiet w Hq) as (res & w' & -> & Hcase).
  unfold counter in Hz. simpl.
  destruct (live w _) as [[[s|l] t]|]; [| |by injection Hz as <-]; [|done].
  apply redis_int_parse in Hz as [Hz _]. apply py_int_parse in Hz.
  destruct (bool_decide_reflect (s = "")) as [->|_]; [done|].
  by rewrite Hz in Hcase.
Qed.

Lemma counter_after_request (bin : Bin) (input : string) (w w' : World)
    (v : option Request) :
  quiet w ->
  create_request self bin input w = (Ok v, w') ->
  exists z,
    counter w (_request_count_key self) = Some z /\
    counter w' (_request_count_key self) = Some (z + 1) /\
    counter_expiry w' (_request_count_key self) = counter_expiry w (_request_count_key self).
Proof.
  intros Hq Hrun.
  apply create_request_ok in Hrun
    as (z & _ & _ & _ & Hz & Hmax & _ & Hc & _ & Hs); [|done].
  exists z. split; [done|].
  assert (Hrange : int64_min <= z + 1 <= int64_max).
  { split; [|lia]. unfold counter in Hz.
    destruct (live w _) as [[[s|l] t]|]; [| |injection Hz as <-; done]; [|done].
    apply redis_int_parse in Hz as [_ [Hlo _]]. lia. }
  assert (Hlive : live w' (_request_count_key self) =
                  Some (Entry (RString (print_int (z + 1)))
                          (counter_expiry w (_request_count_key self)))).
  { unfold live at 1. rewrite Hs, Hc, after_request_counter.
    unfold counter_expiry.
    destruct (live w (_request_count_key self)) as [e|] eqn:He; [|done].
    apply live_Some_is_live in He as [_ He]. destruct e as [ve te].
    unfold is_live in *. simpl in *. by rewrite He. }
  unfold counter, counter_expiry at 1. rewrite Hlive. simpl.
  split; [by apply redis_int_print|done].
Qed.

Lemma counter_after_failure (bin : Bin) (input : string) (w w' : World) (e : exn) :
  quiet w ->
  create_request self bin input w = (Raise e, w') ->
  quiet w' /\
  live w' (_request_count_key self) = live w (_request_count_key self).
Proof.
  intros Hq Hrun.
  destruct (create_request_quiet bin input w Hq)
    as (res & w'' & E & Hq' & Hc & Hframe & _).
  rewrite Hrun in E. injection E as <- <-.
  split; [done|]. apply live_of_store; [by apply (Hframe e)|done].
Qed.

Lemma attempt_all_counter (calls : list (Bin * string)) :
  forall (w w' : World) (m : nat),
    quiet w -> attempt_all self calls w = (Ok m, w') ->
    quiet w' /\ (m <= length calls)%nat /\
    (m = 0%nat ->
     live w' (_request_count_key self) = live w (_request_count_key self)) /\
    (m <> 0%nat ->
     exists z, counter w (_request_count_key self) = Some z /\
               counter w' (_request_count_key self) = Some (z + Z.of_nat m) /\
               counter_expiry w' (_request_count_key self)
               = counter_expiry w (_request_count_key self)).
Proof.
  induction calls as [|[bin input] calls' IH]; intros w w' m Hq Hrun.
  - simpl in Hrun. injection Hrun as <- <-. repeat split; done.
  - cbn [attempt_all] in Hrun. rewrite bind_run in Hrun. unfold succeeds in Hrun.
    destruct (create_request self bin input w) as [[v|e] w1] eqn:Hcall.
    + rewrite bind_run in Hrun.
      destruct (counter_after_request bin input w w1 v Hq Hcall) as (z & Hz & Hz1 & He1).
      apply create_request_ok in Hcall
        as (_ & _ & _ & _ & _ & _ & Hq1 & _ & _ & _); [|done].
      destruct (attempt_all self calls' w1) as [[n|e] w2] eqn:Hrest; [|discriminate Hrun].
      injection Hrun as <- <-.
      destruct (IH w1 w2 n Hq1 Hrest) as (Hq2 & Hlen & Hzero & Hpos).
      split; [done|]. split; [simpl; lia|]. split; [done|].
      intros _. exists z. split; [done|].
      destruct n as [|n].
      * specialize (Hzero eq_refl). unfold counter, counter_expiry in *.
        rewrite Hzero. split; [rewrite Hz1; f_equal; lia|done].
      * destruct Hpos as (z' & Hz' & -> & ->); [done|].
        rewrite Hz1 in Hz'. injection Hz' as <-. split; [f_equal; lia|done].
    + rewrite bind_run in Hrun.
      destruct (counter_after_failure bin input w w1 e Hq Hcall) as (Hq1 & Hl1).
      destruct (attempt_all self calls' w1) as [[n|e'] w2] eqn:Hrest; [|discriminate Hrun].
      injection Hrun as <- <-.
      destruct (IH w1 w2 n Hq1 Hrest) as (Hq2 & Hlen & Hzero & Hpos).
      split; [done|]. split; [simpl; lia|].
      split; [intros Hm; by rewrite Hzero, Hl1|].
      intros Hm. destruct (Hpos Hm) as (z & Hz & Hz' & He').
      exists z. unfold counter, counter_expiry in *. by rewrite <- Hl1.
Qed.

(** C7. With nothing interfering, whatever the counter holds at first
    (nothing, which reads as zero, or a number): after a run of
    [create_request] calls on any bins, of which [m] went through and the
    others raised, [count_requests] is what it was before plus [m]; the
    counter is written only by the calls that went through, and the expiry
    of its key is what it was, none if the key was absent. *)
Theorem count_requests_monotone (calls : list (Bin * string)) (w w' : World)
    (c : Z) (m : nat) :
  quiet w ->
  (count_requests self w).1 = Ok c ->
  attempt_all self calls w = (Ok m, w') ->
  (count_requests self w').1 = Ok (c + Z.of_nat m) /\
  (m = 0%nat ->
   live w' (_request_count_key self) = live w (_request_count_key self)) /\
  (m <> 0%nat ->
   counter w' (_request_count_key self) = Some (c + Z.of_nat m) /\
   counter_expiry w' (_request_count_key self)
   = counter_expiry w (_request_count_key self)).
Proof.
  intros Hq Hc Hrun.
  destruct (attempt_all_counter calls w w' m Hq Hrun) as (Hq' & Hlen & Hzero & Hpos).
  destruct m as [|m].
  - split; [|split; [done|done]].
    rewrite Z.add_0_r, <- Hc. apply count_requests_live; auto.
  - destruct Hpos as (z & Hz & Hz' & He); [done|].
    rewrite (count_requests_counter w z Hq Hz) in Hc. injection Hc as <-.
    split; [by apply count_requests_counter|]. split; [done|]. done.
Qed.

(** ** What [create_request] gives back *)

Lemma create_request_result (bin : Bin) (input : string) (w w' : World)
    (v : option Request) :
  create_request self bin input w = (Ok v, w') -> v = None.
Proof.
  intros Hrun.
  destruct (create_request_trace bin input w)
    as (res & w'' & fails & rest & E & _ & _ & Hcases).
  rewrite Hrun in E. injection E as <- <-.
  destruct Hcases as [(Hr & _)|([Hr|Hr] & _)]; congruence.
Qed.

(** C9, as the code has it. A call of [create_request] that does not raise
    returns nothing ([None]), in any world. When nothing interferes, such a
    call drew one identifier only, and that identifier is the one of the
    serialised request, the one of the key the record is written under and
    the one appended last to the index list. *)
Theorem create_request_returns_none (bin : Bin) (input : string) (w w' : World)
    (v : option Request) :
  create_request self bin input w = (Ok v, w') ->
  v = None /\
  (quiet w ->
   let rid := entropy (drawn w) 6 in
   let t := Bin_created bin + bin_ttl self in
   drawn w' = S (drawn w) /\
   store w' !! _key_request self (Bin_name bin) rid =
     Some (Entry (RString (Request_dump (MkRequest rid input))) (Some (t + 2))) /\
   store w' !! _key_request_list self (Bin_name bin) =
     Some (Entry (RList (listing w (_key_request_list self (Bin_name bin)) ++ [rid]))
             (Some (t + 1)))).
Proof.
  intros Hrun. split; [by eapply create_request_result|].
  intros Hq rid t.
  apply create_request_ok in Hrun as (z & _ & _ & _ & _ & _ & _ & _ & Hd & Hs); [|done].
  split; [done|]. rewrite Hs. split.
  - apply after_request_record.
  - apply after_request_index.
Qed.

(** ** A bin that is not there *)

(** C10. [create_request] never looks at the details record of its bin.
    With nothing interfering, for a bin whose name has no live details
    record: as soon as the record key is free, the index key holds no
    string and the counter can grow, the call goes through: it writes the
    record, appends the identifier to the index list of that name, raises
    the counter by one and leaves the details key absent; and with any
    details record planted under the name the call returns the same and
    leaves the same store, that record apart. *)
Theorem create_request_without_bin (bin : Bin) (input : string) (w : World) (z : Z) :
  quiet w ->
  live w (_key_bin self (Bin_name bin)) = None ->
  live w (_key_request self (Bin_name bin) (entropy (drawn w) 6)) = None ->
  index_ok w (_key_request_list self (Bin_name bin)) = true ->
  counter w (_request_count_key self) = Some z -> z < int64_max ->
  let rid := entropy (drawn w) 6 in
  let t := Bin_created bin + bin_ttl self in
  exists w',
    create_request self bin input w = (Ok None, w') /\
    store w' !! _key_request self (Bin_name bin) rid =
      Some (Entry (RString (Request_dump (MkRequest rid input))) (Some (t + 2))) /\
    store w' !! _key_request_list self (Bin_name bin) =
      Some (Entry (RList (listing w (_key_request_list self (Bin_name bin)) ++ [rid]))
              (Some (t + 1))) /\
    counter w' (_request_count_key self) = Some (z + 1) /\
    live w' (_key_bin self (Bin_name bin)) = None /\
    forall e : entry,
      exists w'',
        create_request self bin input (put (_key_bin self (Bin_name bin)) e w)
        = (Ok None, w'') /\
        store w'' = <[_key_bin self (Bin_name bin) := e]> (store w').
Proof.
  intros Hq Hkb Hkr Hkl Hck Hz rid t.
  destruct (create_request_succeeds bin input w z Hq Hkr Hkl Hck Hz)
    as (w' & Hrun & Hq' & Hc & Hd & Hs).
  exists w'. split; [done|].
  split; [rewrite Hs; apply after_request_record|].
  split; [rewrite Hs; apply after_request_index|].
  split.
  { destruct (counter_after_request bin input w w' None Hq Hrun) as (z' & Hz' & Hz'' & _).
    rewrite Hck in Hz'. by injection Hz' as <-. }
  assert (Hbr := key_bin_request self (Bin_name bin) rid).
  assert (Hbl := key_bin_list self (Bin_name bin)).
  assert (Hcb := key_count_bin self (Bin_name bin)).
  split.
  { rewrite <- Hkb. apply live_of_store; [|done]. rewrite Hs.
    apply after_request_other; [done|done|]. intros E. by apply Hcb. }
  intros e. set (kb := _key_bin self (Bin_name bin)) in *.
  assert (Hlive : forall k, kb <> k -> live (put kb e w) k = live w k)
    by (intros k Hne; by apply live_put_ne).
  destruct (create_request_succeeds bin input (put kb e w) z)
    as (w'' & Hrun' & _ & _ & _ & Hs'); try done.
  - by rewrite Hlive.
  - unfold index_ok. by rewrite Hlive.
  - unfold counter. rewrite Hlive; [done|]. intros E. by apply Hcb.
  - exists w''. split; [done|]. rewrite Hs', Hs. unfold after_request.
    change (drawn (put kb e w)) with (drawn w).
    change (store (put kb e w)) with (<[kb := e]> (store w)).
    unfold listing, counter_expiry. rewrite !Hlive by (done || (intros E; by apply Hcb)).
    fold rid.
    rewrite (insert_insert_ne _ kb (_request_count_key self)) by (intros E; by apply Hcb).
    rewrite (insert_insert_ne _ kb (_key_request_list self (Bin_name bin))) by done.
    by rewrite (insert_insert_ne _ kb (_key_request self (Bin_name bin) rid)).
Qed.

(** ** Counting bins *)

Lemma tokens_plain (p rest : list ascii) :
  Forall plain p ->
  tokens Outside (p ++ rest) = (TLit <$> p) ++ tokens Outside rest.
Proof.
  induction 1 as [|c p (H1 & H2 & H3 & H4) _ IH]; [done|].
  cbn [app tokens fmap list_fmap].
  rewrite !bool_decide_eq_false_2 by done. by rewrite IH.
Qed.

Lemma matches_literal (p : list ascii) (ts : list token) (s : list ascii) :
  matches ((TLit <$> p) ++ ts) (p ++ s) = matches ts s.
Proof.
  induction p as [|c p IH]; [done|].
  cbn [app matches fmap list_fmap]. by rewrite bool_decide_eq_true_2, IH.
Qed.

Lemma list_ascii_of_append (a b : string) :
  list_ascii_of_string (a ++ b)%string = list_ascii_of_string a ++ list_ascii_of_string b.
Proof.
  induction a as [|c a IH]; [done|].
  rewrite append_cons. cbn [list_ascii_of_string app]. by rewrite IH.
Qed.

(** The pattern of [count_bins] matches no key that the key schema makes:
    all of them go on with a colon after the prefix, the pattern asks for
    an underscore. *)
Lemma count_bins_pattern (rest : string) :
  Forall plain (list_ascii_of_string (prefix self)) ->
  glob (prefix self ++ "_*")%string (prefix self ++ ":" ++ rest)%string = false.
Proof.
  intros Hplain. unfold glob. rewrite !list_ascii_of_append.
  rewrite tokens_plain by done. by rewrite matches_literal.
Qed.

Lemma omap_none {A B} (f : A -> option B) (l : list A) :
  (forall x, x ∈ l -> f x = None) -> omap f l = [].
Proof.
  induction l as [|x l IH]; intros Hf; [done|].
  cbn. rewrite (Hf x) by apply list_elem_of_here.
  apply IH. intros y Hy. apply Hf. by apply list_elem_of_further.
Qed.

Lemma schema_keys_shape (name rid : string) :
  (exists rest, _key_bin self name = (prefix self ++ ":" ++ rest)%string) /\
  (exists rest, _key_request_list self name = (prefix self ++ ":" ++ rest)%string) /\
  (exists rest, _key_request self name rid = (prefix self ++ ":" ++ rest)%string) /\
  (exists rest, _request_count_key self = (prefix self ++ ":" ++ rest)%string).
Proof.
  unfold _key_bin, _key_request_list, _key_request, _request_count_key.
  repeat split; eexists; (apply (f_equal (String.append (prefix self))));
    rewrite !append_cons; f_equal; reflexivity.
Qed.

(** For a prefix without pattern characters and with nothing interfering:
    in a store whose keys are all keys of the schema (the prefix, a colon,
    and more), however many live bins it holds, [count_bins] returns 0; the
    details key of a bin is never matched by the pattern that [count_bins]
    enumerates. *)
Lemma count_bins_counts_nothing (w : World) :
  Forall plain (list_ascii_of_string (prefix self)) ->
  quiet w ->
  (forall k, is_Some (store w !! k) ->
             exists rest, k = (prefix self ++ ":" ++ rest)%string) ->
  (forall name, glob (prefix self ++ "_*")%string (_key_bin self name) = false) /\
  exists w', count_bins self w = (Ok 0%nat, w').
Proof.
  intros Hplain Hq Hkeys. split.
  { intros name. destruct (schema_keys_shape name "") as [[rest ->] _].
    by apply count_bins_pattern. }
  unfold count_bins. rewrite bind_run, redis_keys_quiet by done.
  unfold ret, live_keys. rewrite omap_none; [by eexists|].
  intros [k e] Hin. apply elem_of_map_to_list in Hin. simpl.
  destruct (Hkeys k) as [rest ->]; [by eexists|].
  rewrite count_bins_pattern by done. by rewrite andb_false_r.
Qed.

(** * More of the storage layer *)

(** ** The key schema across bins *)

Lemma append_assoc (a b c : string) : ((a ++ b) ++ c = a ++ (b ++ c))%string.
Proof.
  induction a as [|x a IH]; [done|]. rewrite !append_cons. by rewrite IH.
Qed.

Lemma colon_free_cons (c : ascii) (s : string) :
  colon_free (String c s) <-> c <> ":"%char /\ colon_free s.
Proof.
  unfold colon_free. cbn [list_ascii_of_string].
  apply (Forall_cons (fun c => c <> ":"%char)).
Qed.

(** Two identifiers without colon, each followed by a colon and more: the
    first colon tells where the identifier ends. *)
Lemma colon_split (a a' x y : string) :
  colon_free a -> colon_free a' ->
  (a ++ String ":" x = a' ++ String ":" y)%string ->
  a = a' /\ x = y.
Proof.
  revert a'. induction a as [|c a IH]; intros [|c' a'] Ha Ha' E.
  - by injection E as ->.
  - rewrite append_cons in E. injection E as <- _.
    apply colon_free_cons in Ha' as [Hc _]. done.
  - rewrite append_cons in E. injection E as -> _.
    apply colon_free_cons in Ha as [Hc _]. done.
  - rewrite !append_cons in E. injection E as -> E.
    apply colon_free_cons in Ha as [_ Ha]. apply colon_free_cons in Ha' as [_ Ha'].
    destruct (IH a' Ha Ha' E) as [-> ->]. done.
Qed.

(** For one bin, the four kinds of key never meet, and two request
    identifiers never share a record key, whatever the prefix, the name and
    the identifiers are. *)
Theorem key_schema_one_bin (name rid rid' : string) :
  _key_bin self name <> _key_request_list self name /\
  _key_bin self name <> _key_request self name rid /\
  _key_request_list self name <> _key_request self name rid /\
  _request_count_key self <> _key_bin self name /\
  _request_count_key self <> _key_request_list self name /\
  _request_count_key self <> _key_request self name rid /\
  (_key_request self name rid = _key_request self name rid' -> rid = rid').
Proof.
  split; [apply key_bin_list|]. split; [apply key_bin_request|].
  split; [apply key_list_request|]. split; [apply key_count_bin|].
  split; [apply key_count_list|]. split; [apply key_count_request|].
  apply key_request_inj.
Qed.

(** Across bins: when the names hold no colon, keys of different bins or of
    different kinds are different keys, and a key tells its bin and its
    request. *)
Theorem key_schema_injective (name name' rid rid' : string) :
  colon_free name -> colon_free name' ->
  (_key_bin self name = _key_bin self name' -> name = name') /\
  (_key_request_list self name = _key_request_list self name' -> name = name') /\
  (_key_request self name rid = _key_request self name' rid' ->
   name = name' /\ rid = rid') /\
  _key_bin self name <> _key_request_list self name' /\
  _key_bin self name <> _key_request self name' rid' /\
  _key_request_list self name <> _key_request self name' rid'.
Proof.
  intros Hn Hn'.
  assert (Hsplit : forall x y : string,
             (prefix self ++ ":bins:" ++ name ++ String ":" x)%string
             = (prefix self ++ ":bins:" ++ name' ++ String ":" y)%string ->
             name = name' /\ x = y).
  { intros x y E. do 2 apply String.app_inj in E. by apply colon_split. }
  unfold _key_bin, _key_request_list, _key_request.
  split; [intros E; by apply Hsplit in E as [-> _]|].
  split; [intros E; by apply Hsplit in E as [-> _]|].
  split.
  { intros E. apply Hsplit in E as [-> E]. split; [done|].
    by apply (String.app_inj "requests:") in E. }
  repeat split; intros E; apply Hsplit in E as [_ E]; discriminate E.
Qed.

(** A name with a colon in it can make the details key of one bin the
    record key of another. *)
Theorem key_schema_collision (a x : string) :
  _key_bin self (a ++ ":requests:" ++ x)%string =
  _key_request self a (x ++ ":details")%string.
Proof.
  unfold _key_bin, _key_request. do 2 f_equal.
  rewrite !append_assoc. do 2 f_equal.
Qed.

(** ** Everything a call of [create_request] writes *)

(** Whatever the outcome, in a quiet world: the keys other than the record
    key, the index key and the counter key are left alone; once the record
    key was free the record is written; and unless the index key holds a
    string the identifier is appended. *)
Lemma create_request_effects (bin : Bin) (input : string) (w : World) :
  quiet w ->
  let rid := entropy (drawn w) 6 in
  let kr := _key_request self (Bin_name bin) rid in
  let kl := _key_request_list self (Bin_name bin) in
  let ck := _request_count_key self in
  let t := Bin_created bin + bin_ttl self in
  exists res w',
    create_request self bin input w = (res, w') /\
    (forall k, k <> kr -> k <> kl -> k <> ck -> store w' !! k = store w !! k) /\
    match live w kr with
    | Some _ => store w' = store w
    | None =>
        store w' !! kr =
          Some (Entry (RString (Request_dump (MkRequest rid input))) (Some (t + 2))) /\
        (index_ok w kl = true ->
         store w' !! kl = Some (Entry (RList (listing w kl ++ [rid])) (Some (t + 1)))) /\
        (index_ok w kl = false -> store w' !! kl = store w !! kl)
    end.
Proof.
  intros Hq rid kr kl ck t.
  unfold create_request, Request_new.
  unfold bind at 1. unfold bind at 1. unfold tinyid, ret.
  change (entropy (drawn w) 6) with rid.
  change (_key_request self (Bin_name bin) (Request_id (MkRequest rid input))) with kr.
  fold kl ck.
  set (w0 := advance w).
  assert (Hq0 : quiet w0) by done.
  assert (Hl0 : forall k, live w0 k = live w k) by done.
  unfold bind at 1.
  destruct (live w kr) as [e|] eqn:Hkr.
  - destruct (write_loop_taken 50 kr (MkRequest rid input) w0 Hq0) as
      (req' & w' & Hrun & Hs & Hc & Hq' & Hd).
    { rewrite Hl0, Hkr. by eexists. }
    rewrite Hrun. simpl. unfold raise. exists (Raise RuntimeError), w'.
    split; [done|]. split; [intros; by rewrite Hs|done].
  - rewrite write_loop_free by (by rewrite ?Hl0). cbn [fst snd negb Request_id].
    assert (Hrl : kr <> kl) by (intros E; symmetry in E; by apply key_list_request in E).
    assert (Hrc : kr <> ck) by (intros E; symmetry in E; by apply key_count_request in E).
    assert (Hlc : kl <> ck) by (intros E; symmetry in E; by apply key_count_list in E).
    assert (Hlr : kl <> kr) by done.
    assert (Hcr : ck <> kr) by done.
    assert (Hcl : ck <> kl) by done.
    assert (Hz0 : redis_int (print_int 0) = Some 0) by (by apply redis_int_print).
    set (r := MkRequest rid input).
    unfold index_ok, listing.
    destruct (live w kl) as [[[s|l] tl]|] eqn:Hkl;
      destruct (live w ck) as [[[sc|lc] tc]|] eqn:Hck;
      try (destruct (redis_int sc) as [z|] eqn:Hz;
           [destruct (z <? int64_max)%Z eqn:Hmax|]);
      try (pose proof (live_Some_is_live _ _ _ Hkl) as [_ Hlive]);
      try (pose proof (live_Some_is_live _ _ _ Hck) as [_ Hclive]).
    all: rewrite bind_run, redis_expireat_quiet by done; live_step.
    all: rewrite bind_run, redis_rpush_quiet by done; live_step; rewrite Hl0, Hkl.
    all: try (rewrite bind_run, redis_expireat_quiet by done; live_step;
              rewrite bind_run, redis_setnx_quiet by done; live_step; rewrite Hl0, Hck;
              rewrite bind_run, redis_incr_quiet by done; live_step; rewrite ?Hl0, ?Hck;
              cbn [value expiry]; rewrite ?Hz0, ?Hz, ?Hmax;
              try (change (0 <? int64_max)%Z with true; cbv iota)).
    all: eexists _, _; (split; [reflexivity|]);
      subst w0; cbn [store record put set_store advance value].
    all: split; [intros k Hk1 Hk2 Hk3; by rewrite ?lookup_insert_ne by done|].
    all: split; [rewrite ?lookup_insert_ne by done; by rewrite lookup_insert_eq|].
    all: split; [|intros; try done; by rewrite ?lookup_insert_ne by done].
    all: intros; try done.
    all: rewrite ?lookup_insert_ne by done; by rewrite lookup_insert_eq.
Qed.

(** ** The identifier of a request after retries *)

Lemma drawn_absorb (w : World) : drawn (absorb w) = drawn w.
Proof.
  unfold absorb. destruct (pending w) as [|i rest]; [done|]. by destruct i.
Qed.

Lemma drawn_serve (c : command) (w : World) : drawn (serve c w).2 = drawn w.
Proof.
  destruct c; simpl; try done;
    repeat match goal with
           | |- context [match ?x with _ => _ end] => destruct x
           end; done.
Qed.

Lemma execute_command_step (c : command) (w : World) :
  exists r w',
    execute_command c w = (r, w') /\
    log w' = log w ++ [(c, r)] /\ drawn w' = drawn w.
Proof.
  unfold execute_command.
  pose proof (log_serve c (absorb w)) as Hlog.
  pose proof (drawn_serve c (absorb w)) as Hd.
  destruct (serve c (absorb w)) as [r w']. simpl in Hlog, Hd.
  exists r, (record c r w'). split; [done|]. simpl.
  by rewrite Hlog, Hd, log_absorb, drawn_absorb.
Qed.

Lemma integer_reply_step (c : command) (w : World) :
  exists res r w',
    integer_reply c w = (res, w') /\
    log w' = log w ++ [(c, r)] /\ drawn w' = drawn w /\
    (res = Raise ResponseError \/ exists z, res = Ok z /\ r = Int z).
Proof.
  unfold integer_reply.
  destruct (execute_command_step c w) as (r & w' & -> & Hlog & Hd).
  destruct r; eauto 10.
Qed.

Lemma bool_reply_step (c : command) (w : World) :
  exists res r w',
    bind (integer_reply c) (fun z => ret (bool_decide (z = 1))) w = (res, w') /\
    log w' = log w ++ [(c, r)] /\ drawn w' = drawn w /\
    (res = Raise ResponseError \/ exists z, res = Ok (bool_decide (z = 1)) /\ r = Int z).
Proof.
  rewrite bind_run.
  destruct (integer_reply_step c w)
    as (res & r & w' & -> & Hlog & Hd & [->|(z & -> & ->)]);
    unfold ret; eauto 10.
Qed.

Lemma redis_setnx_step (k v : string) (w : World) :
  exists (b : bool) w',
    redis_setnx k v w = (Ok b, w') /\
    log w' = log w ++ [(SETNX k v, Int (if b then 1 else 0))] /\
    drawn w' = drawn w.
Proof.
  unfold redis_setnx, integer_reply. rewrite bind_run.
  unfold execute_command.
  pose proof (log_absorb w) as Habs. pose proof (drawn_absorb w) as Hd.
  simpl. destruct (live (absorb w) k); simpl.
  - exists false. eexists. split; [reflexivity|]. simpl. by rewrite Habs, Hd.
  - exists true. eexists. split; [reflexivity|]. simpl. by rewrite Habs, Hd.
Qed.

(** The loop in any world: [k] refused writes, [k] identifiers drawn, and
    when it stops on an accepted write, that write carries the request with
    the identifier drawn last. *)
Lemma write_loop_ids (kr : string) (n : nat) :
  forall (req : Request) (w : World),
    exists (k : nat) (b : bool) (fails : list (command * reply)) (w' : World),
      write_loop n kr req false w =
        (Ok (b, MkRequest (kth_id (Request_id req) (drawn w) k) (Request_payload req)), w') /\
      drawn w' = (drawn w + k)%nat /\ length fails = k /\
      if b
      then (k < n)%nat /\
           log w' = log w ++ fails ++
             [(SETNX kr (Request_dump
                           (MkRequest (kth_id (Request_id req) (drawn w) k)
                              (Request_payload req))), Int 1)]
      else k = n /\ log w' = log w ++ fails.
Proof.
  induction n as [|n IH]; intros req w.
  - exists 0%nat, false, [], w. simpl. unfold ret.
    destruct req. repeat split; [lia|]. by rewrite app_nil_r.
  - cbn [write_loop]. rewrite bind_run.
    destruct (redis_setnx_step kr (Request_dump req) w) as (b1 & w1 & -> & Hlog1 & Hd1).
    destruct b1.
    + exists 0%nat, true, [], w1. unfold ret. destruct req.
      repeat split; [lia|lia|done].
    + rewrite bind_run. unfold tinyid. rewrite Hd1.
      destruct (IH (set_id (entropy (drawn w) 6) req) (advance w1))
        as (k & b & fails & w' & Hrun & Hd & Hlen & Hshape).
      cbn [set_id Request_id Request_payload advance drawn log] in Hrun, Hd, Hshape.
      rewrite Hd1 in Hrun, Hd, Hshape.
      assert (Hid : kth_id (entropy (drawn w) 6) (S (drawn w)) k
                    = kth_id (Request_id req) (drawn w) (S k)).
      { destruct k as [|j]; simpl; [by rewrite Nat.add_0_r|]. f_equal. lia. }
      rewrite Hid in Hrun, Hshape.
      exists (S k), b, ((SETNX kr (Request_dump req), Int 0) :: fails), w'.
      split; [exact Hrun|]. split; [lia|]. split; [simpl; lia|].
      destruct b.
      * destruct Hshape as [Hlt Hlog]. split; [lia|].
        rewrite Hlog, Hlog1. by rewrite <- !app_assoc.
      * destruct Hshape as [Hlt Hlog]. split; [lia|].
        rewrite Hlog, Hlog1. by rewrite <- !app_assoc.
Qed.

Lemma kth_id_first (d k : nat) :
  kth_id (entropy d 6) (S d) k = entropy (d + k) 6.
Proof. destruct k as [|j]; simpl; f_equal; lia. Qed.

Lemma sent_app (w w' : World) (seg : list (command * reply)) :
  log w' = log w ++ seg -> sent w w' = seg.
Proof. intros E. unfold sent. rewrite E. by rewrite drop_app_length. Qed.

(** What a call draws and sends, in any world: [k] writes refused, [k + 1]
    identifiers drawn; after 50 refusals nothing else; otherwise the
    accepted write carries the request with the last identifier, and so
    does the append to the index. *)
Lemma create_request_ids (bin : Bin) (input : string) (w : World) :
  let kr := _key_request self (Bin_name bin) (entropy (drawn w) 6) in
  let kl := _key_request_list self (Bin_name bin) in
  exists res w' k,
    create_request self bin input w = (res, w') /\
    (res = Raise RuntimeError ->
     k = 50%nat /\ drawn w' = (drawn w + 51)%nat /\ length (sent w w') = 50%nat) /\
    (res <> Raise RuntimeError -> (k < 50)%nat) /\
    (forall v, res = Ok v ->
       drawn w' = (drawn w + 1 + k)%nat /\
       (SETNX kr (Request_dump (MkRequest (entropy (drawn w + k) 6) input)), Int 1)
         ∈ sent w w' /\
       exists n, (RPUSH kl (entropy (drawn w + k) 6), Int n) ∈ sent w w').
Proof.
  intros kr kl. unfold create_request, Request_new.
  rewrite bind_run. rewrite bind_run. unfold tinyid, ret.
  change (_key_request self (Bin_name bin)
            (Request_id (MkRequest (entropy (drawn w) 6) input))) with kr.
  fold kl. rewrite bind_run.
  destruct (write_loop_ids kr 50 (MkRequest (entropy (drawn w) 6) input) (advance w))
    as (k & b & fails & w1 & -> & Hd1 & Hlen & Hshape).
  cbn [fst snd Request_id Request_payload advance drawn log] in *.
  rewrite kth_id_first in *.
  destruct b; cbn [negb].
  2:{ destruct Hshape as [-> Hlog]. unfold raise.
      exists (Raise RuntimeError), w1, 50%nat. split; [done|].
      split; [|split; [done|done]].
      intros _. split; [done|]. split; [lia|]. by rewrite (sent_app _ _ _ Hlog). }
  destruct Hshape as [Hlt Hlog1].
  unfold redis_expireat, redis_setnx, redis_rpush, redis_incr.
  set (ev1 := (SETNX kr (Request_dump (MkRequest (entropy (drawn w + k) 6) input)), Int 1)).
  fold ev1 in Hlog1.
  rewrite bind_run.
  destruct (bool_reply_step (EXPIREAT kr (Bin_created bin + bin_ttl self + 2)) w1)
    as (res2 & r2 & w2 & -> & Hlog2 & Hd2 & [->|(z2 & -> & ->)]);
    [eexists _, _, k; split; [reflexivity|]; by repeat split|].
  rewrite bind_run.
  destruct (integer_reply_step (RPUSH kl (entropy (drawn w + k) 6)) w2)
    as (res3 & r3 & w3 & -> & Hlog3 & Hd3 & [->|(z3 & -> & ->)]);
    [eexists _, _, k; split; [reflexivity|]; by repeat split|].
  rewrite bind_run.
  destruct (bool_reply_step (EXPIREAT kl (Bin_created bin + bin_ttl self + 1)) w3)
    as (res4 & r4 & w4 & -> & Hlog4 & Hd4 & [->|(z4 & -> & ->)]);
    [eexists _, _, k; split; [reflexivity|]; by repeat split|].
  rewrite bind_run.
  destruct (bool_reply_step (SETNX (_request_count_key self) (print_int 0)) w4)
    as (res5 & r5 & w5 & -> & Hlog5 & Hd5 & [->|(z5 & -> & ->)]);
    [eexists _, _, k; split; [reflexivity|]; by repeat split|].
  rewrite bind_run.
  destruct (integer_reply_step (INCR (_request_count_key self)) w5)
    as (res6 & r6 & w6 & -> & Hlog6 & Hd6 & [->|(z6 & -> & ->)]);
    [eexists _, _, k; split; [reflexivity|]; by repeat split|].
  exists (Ok None), w6, k. split; [done|]. split; [done|]. split; [done|].
  intros v _.
  split; [rewrite Hd6, Hd5, Hd4, Hd3, Hd2, Hd1; lia|].
  assert (Hsent : sent w w6 =
                  fails ++ ev1 :: (EXPIREAT kr (Bin_created bin + bin_ttl self + 2), Int z2)
                    :: (RPUSH kl (entropy (drawn w + k) 6), Int z3)
                    :: (EXPIREAT kl (Bin_created bin + bin_ttl self + 1), Int z4)
                    :: (SETNX (_request_count_key self) (print_int 0), Int z5)
                    :: [(INCR (_request_count_key self), Int z6)]).
  { apply sent_app. rewrite Hlog6, Hlog5, Hlog4, Hlog3, Hlog2, Hlog1.
    by rewrite <- !app_assoc. }
  rewrite Hsent. split.
  - apply elem_of_app. right. apply list_elem_of_here.
  - exists z3. apply elem_of_app. right.
    do 2 apply list_elem_of_further. apply list_elem_of_here.
Qed.

(** In any world: when [create_request] goes through, it has drawn [k + 1]
    identifiers for some [k] below 50, its own and [k] regenerated ones; the
    record was written under the key of the first one, and the request
    written there and the identifier appended to the index list carry the
    last one. *)
Theorem create_request_carries_last_id (bin : Bin) (input : string) (w w' : World)
    (v : option Request) :
  create_request self bin input w = (Ok v, w') ->
  exists k,
    (k < 50)%nat /\ drawn w' = (drawn w + 1 + k)%nat /\
    (SETNX (_key_request self (Bin_name bin) (entropy (drawn w) 6))
       (Request_dump (MkRequest (entropy (drawn w + k) 6) input)), Int 1)
      ∈ sent w w' /\
    exists n, (RPUSH (_key_request_list self (Bin_name bin)) (entropy (drawn w + k) 6), Int n)
                ∈ sent w w'.
Proof.
  intros Hrun.
  destruct (create_request_ids bin input w) as (res & w'' & k & E & _ & Hk & Hok).
  rewrite Hrun in E. injection E as <- <-.
  exists k. split; [by apply Hk|]. by apply (Hok v).
Qed.

(** In any world: a call that gives up has drawn 51 identifiers, the one of
    the request and one after each of the 50 refused writes, and has sent
    50 commands. *)
Theorem create_request_exhausted_draws (bin : Bin) (input : string) (w w' : World) :
  create_request self bin input w = (Raise RuntimeError, w') ->
  drawn w' = (drawn w + 51)%nat /\ length (sent w w') = 50%nat.
Proof.
  intros Hrun.
  destruct (create_request_ids bin input w) as (res & w'' & k & E & Hex & _).
  rewrite Hrun in E. injection E as <- <-.
  by destruct (Hex eq_refl) as (_ & ? & ?).
Qed.

(** ** When [create_request] fails *)

(** With nothing interfering the retries change nothing: the call gives up
    exactly when the key of the first identifier is taken, whatever the
    identifiers drawn afterwards, and it then leaves the store as it was. *)
Theorem create_request_gives_up_iff_taken (bin : Bin) (input : string) (w : World) :
  quiet w ->
  let kr := _key_request self (Bin_name bin) (entropy (drawn w) 6) in
  ((create_request self bin input w).1 = Raise RuntimeError <-> is_Some (live w kr)) /\
  (is_Some (live w kr) -> store (create_request self bin input w).2 = store w).
Proof.
  intros Hq kr.
  destruct (create_request_quiet bin input w Hq) as (res & w' & -> & _ & _ & _ & Hcase).
  fold kr in Hcase. cbn [fst snd].
  destruct (live w kr) as [e|].
  - destruct Hcase as [-> Hs]. split; [|done]. split; [by eexists|done].
  - split; [|by intros [? ?]]. split; [|by intros [? ?]].
    intros ->.
    destruct (index_ok w _); [|done].
    destruct (counter w _) as [z|]; [|done].
    by destruct (z <? int64_max)%Z; [destruct Hcase|].
Qed.

(** With nothing interfering: when the record key is free and the index key
    holds no string, but the counter holds no integer that can grow, the
    call raises [ResponseError] after the request was created: its record
    is written and its identifier is in the index list; the counter is
    untouched. *)
Theorem create_request_fails_after_writing (bin : Bin) (input : string) (w : World) :
  quiet w ->
  let rid := entropy (drawn w) 6 in
  let kr := _key_request self (Bin_name bin) rid in
  let kl := _key_request_list self (Bin_name bin) in
  let ck := _request_count_key self in
  let t := Bin_created bin + bin_ttl self in
  live w kr = None ->
  index_ok w kl = true ->
  counter w ck = None \/ counter w ck = Some int64_max ->
  exists w',
    create_request self bin input w = (Raise ResponseError, w') /\
    store w' !! kr =
      Some (Entry (RString (Request_dump (MkRequest rid input))) (Some (t + 2))) /\
    store w' !! kl = Some (Entry (RList (listing w kl ++ [rid])) (Some (t + 1))) /\
    store w' !! ck = store w !! ck.
Proof.
  intros Hq rid kr kl ck t Hkr Hkl Hck.
  destruct (create_request_quiet bin input w Hq)
    as (res & w' & Hrun & _ & _ & Hframe & Hcase).
  destruct (create_request_effects bin input w Hq) as (res' & w'' & Hrun' & _ & Heff).
  rewrite Hrun in Hrun'. injection Hrun' as <- <-.
  fold rid kr kl ck t in Hcase, Heff, Hframe.
  rewrite Hkr in Hcase, Heff. rewrite Hkl in Hcase.
  assert (Hres : res = Raise ResponseError).
  { destruct Hck as [Hck|Hck]; rewrite Hck in Hcase; [done|].
    by change (int64_max <? int64_max)%Z with false in Hcase. }
  subst res. destruct Heff as (Hr & Hl & _).
  exists w'. split; [done|]. split; [done|]. split; [by apply Hl|].
  by apply (Hframe ResponseError).
Qed.

(** ** Reading: all or nothing, and twice the same *)

(** [lookup_bin] reads three kinds of key and no other: two quiet worlds
    that show the same under them give the same result. *)
Lemma lookup_bin_agree (name : string) (w1 w2 : World) :
  quiet w1 -> quiet w2 ->
  live w1 (_key_bin self name) = live w2 (_key_bin self name) ->
  live w1 (_key_request_list self name) = live w2 (_key_request_list self name) ->
  (forall x, bulk_of w1 (_key_request self name x) = bulk_of w2 (_key_request self name x)) ->
  (lookup_bin self name w1).1 = (lookup_bin self name w2).1.
Proof.
  intros Hq1 Hq2 Hkb Hkl Hkr.
  destruct (lookup_bin_quiet name w1 Hq1) as (r1 & w1' & -> & _ & _ & H1).
  destruct (lookup_bin_quiet name w2 Hq2) as (r2 & w2' & -> & _ & _ & H2).
  cbn [fst]. rewrite Hkb, Hkl in H1.
  assert (Hbulk : forall l, bulk_of w1 <$> map (_key_request self name) l
                            = bulk_of w2 <$> map (_key_request self name) l).
  { intros l. induction l as [|x l IH]; [done|]. cbn. by rewrite Hkr, IH. }
  destruct (live w2 (_key_bin self name)) as [[[s|lb] tb]|];
    [|congruence|destruct H1, H2; congruence].
  destruct (unpack_bin s) as [b|]; [|destruct H1, H2; congruence].
  destruct (live w2 (_key_request_list self name)) as [[[sl|l] tl]|];
    [congruence| |destruct H1, H2; congruence].
  destruct l as [|x l]; [destruct H1, H2; congruence|].
  rewrite Hbulk in H1.
  destruct (py_map Request_load _); destruct H1, H2; congruence.
Qed.

(** The only key [lookup_bin] ever changes is the details key, which it
    deletes exactly when it raises [KeyError]; and it never lets a
    [TypeError] out. *)
Lemma lookup_bin_store (name : string) (w : World) :
  quiet w ->
  exists res w',
    lookup_bin self name w = (res, w') /\ quiet w' /\ clock w' = clock w /\
    res <> Raise TypeError /\
    (res = Raise KeyError -> store w' = delete (_key_bin self name) (store w)) /\
    (res <> Raise KeyError -> store w' = store w).
Proof.
  intros Hq. set (kb := _key_bin self name). set (kl := _key_request_list self name).
  unfold lookup_bin. fold kb kl.
  rewrite bind_run, redis_get_quiet by done.
  destruct (live w kb) as [[[s|lb] tb]|] eqn:Hkb.
  - unfold try_except, lift. rewrite bind_run. unfold Bin_load.
    destruct (unpack_bin s) as [b|] eqn:Hb.
    + rewrite bind_run, redis_llen_quiet by done. live_step.
      destruct (live w kl) as [[[sl|l] tl]|] eqn:Hkl.
      * eexists _, _. split; [reflexivity|]. by repeat split.
      * destruct l as [|x l].
        { simpl. eexists _, _. split; [reflexivity|]. by repeat split. }
        set (l' := x :: l).
        assert (Hpos : (0 <? Z.of_nat (length l'))%Z = true)
          by (apply Z.ltb_lt; simpl; lia).
        rewrite Hpos.
        rewrite bind_run, redis_lrange_quiet by done. live_step. rewrite Hkl.
        rewrite lrange_all by done.
        rewrite bind_run, redis_mget_quiet by done.
        rewrite bind_run.
        destruct (py_map Request_load _) as [rs|e] eqn:Hmap.
        { unfold ret. eexists _, _. split; [reflexivity|]. by repeat split. }
        apply py_map_raises in Hmap as ->; [|intros ? ?; apply Request_load_raises].
        rewrite bool_decide_eq_true_2 by done.
        rewrite bind_run.
        edestruct redis_delete_quiet as [z ->];
          [|eexists _, _; split; [reflexivity|by repeat split]].
        done.
      * simpl. eexists _, _. split; [reflexivity|]. by repeat split.
    + rewrite bool_decide_eq_true_2 by done. rewrite bind_run.
      edestruct redis_delete_quiet as [z ->];
        [|eexists _, _; split; [reflexivity|by repeat split]].
      done.
  - eexists _, _. split; [reflexivity|]. by repeat split.
  - unfold try_except, lift. rewrite bind_run. unfold Bin_load.
    rewrite bool_decide_eq_true_2 by done. rewrite bind_run.
    edestruct redis_delete_quiet as [z ->];
      [|eexists _, _; split; [reflexivity|by repeat split]].
    done.
Qed.

(** With nothing interfering: [lookup_bin] called again right away gives
    what it gave the first time; it changes no key but the details key of
    the name, and that one only by deleting it when it raises [KeyError]. *)
Theorem lookup_bin_twice (name : string) (w : World) :
  quiet w ->
  let out := lookup_bin self name w in
  (lookup_bin self name out.2).1 = out.1 /\
  (forall k, k <> _key_bin self name -> store out.2 !! k = store w !! k) /\
  (out.1 <> Raise KeyError -> store out.2 = store w).
Proof.
  intros Hq out.
  destruct (lookup_bin_store name w Hq)
    as (res & w' & Hrun & Hq' & Hc & Hty & Hdel & Hsame).
  unfold out. rewrite Hrun. cbn [fst snd].
  assert (Hdec : res = Raise KeyError \/ res <> Raise KeyError).
  { destruct res as [b|e]; [by right|].
    destruct (decide (e = KeyError)) as [->|Hne]; [by left|right; congruence]. }
  assert (Hother : forall k, k <> _key_bin self name -> store w' !! k = store w !! k).
  { intros k Hk. destruct Hdec as [E|E].
    - rewrite (Hdel E). by rewrite lookup_delete_ne.
    - by rewrite (Hsame E). }
  split; [|split; [done|done]].
  destruct Hdec as [->|E].
  - destruct (lookup_bin_quiet name w' Hq') as (r2 & w2 & -> & _ & _ & H2).
    assert (Hgone : live w' (_key_bin self name) = None).
    { unfold live. by rewrite Hdel, lookup_delete_eq. }
    rewrite Hgone in H2. by destruct H2.
  - replace res with (lookup_bin self name w).1 by (by rewrite Hrun).
    apply lookup_bin_agree; try done.
    + apply live_of_store; [by rewrite (Hsame E)|done].
    + apply live_of_store; [by rewrite (Hsame E)|done].
    + intros x. unfold bulk_of. by rewrite (live_of_store w w'); [|rewrite (Hsame E)|].
Qed.

Lemma py_map_Ok {A B} (f : A -> result B) (l : list A) (ys : list B) :
  py_map f l = Ok ys <-> Forall2 (fun x y => f x = Ok y) l ys.
Proof.
  revert ys. induction l as [|x l IH]; intros ys; simpl.
  - split; [intros [= <-]; constructor|by inversion 1].
  - destruct (f x) as [y|e] eqn:Hx.
    + destruct (py_map f l) as [ys'|e'] eqn:Hl.
      * split.
        -- intros [= <-]. constructor; [done|]. by apply IH.
        -- inversion 1 as [|? y0 ? ys0 Hy Hys]; subst.
           rewrite Hx in Hy. injection Hy as <-.
           apply IH in Hys. by injection Hys as <-.
      * split; [done|]. inversion 1 as [|? y0 ? ys0 Hy Hys]; subst.
        apply IH in Hys. done.
    + split; [done|]. inversion 1 as [|? y0 ? ys0 Hy Hys]; subst.
      rewrite Hx in Hy. done.
Qed.

Lemma Request_load_Ok (w : World) (k : string) (r : Request) :
  Request_load (bulk_of w k) = Ok r <-> decodes w k r.
Proof.
  unfold Request_load, decodes. destruct (bulk_of w k) as [s|].
  - destruct (unpack_request s) as [r'|] eqn:Hs.
    + split; [intros [= <-]; by exists s|]. intros (s' & [= <-] & Hr). congruence.
    + split; [done|]. intros (s' & [= <-] & Hr). congruence.
  - split; [done|]. by intros (s' & ? & _).
Qed.

(** With nothing interfering, for a bin whose details deserialise and whose
    index list is not empty: [lookup_bin] returns the bin exactly when every
    identifier of the list has a record behind it that deserialises, and
    then with one request for each, in reverse order, and the store as it
    was; in every other case it raises [KeyError] and deletes the details
    key. *)
Theorem lookup_bin_all_or_nothing (name : string) (w : World) (s : string) (b : Bin)
    (tb tl : option Z) (l : list string) :
  quiet w ->
  live w (_key_bin self name) = Some (Entry (RString s) tb) ->
  unpack_bin s = Some b ->
  live w (_key_request_list self name) = Some (Entry (RList l) tl) ->
  l <> [] ->
  let out := lookup_bin self name w in
  (forall rs, Forall2 (fun x r => decodes w (_key_request self name x) r) l rs ->
     out.1 = Ok (set_requests (rev rs) b) /\ store out.2 = store w) /\
  ((forall rs, ~ Forall2 (fun x r => decodes w (_key_request self name x) r) l rs) ->
     out.1 = Raise KeyError /\
     store out.2 = delete (_key_bin self name) (store w)) /\
  (forall found, out.1 = Ok found ->
     exists rs, Forall2 (fun x r => decodes w (_key_request self name x) r) l rs /\
                found = set_requests (rev rs) b).
Proof.
  intros Hq Hkb Hb Hkl Hl out.
  destruct (lookup_bin_quiet name w Hq) as (res & w' & Hrun & _ & _ & Hcase).
  unfold out. rewrite Hrun. cbn [fst snd].
  rewrite Hkb, Hb, Hkl in Hcase.
  destruct l as [|x l]; [done|].
  assert (Hiff : forall rs,
             py_map Request_load (bulk_of w <$> map (_key_request self name) (x :: l)) = Ok rs
             <-> Forall2 (fun x r => decodes w (_key_request self name x) r) (x :: l) rs).
  { intros rs. rewrite py_map_Ok. generalize (x :: l). clear. intros l.
    revert rs. induction l as [|y l IH]; intros rs; cbn [map fmap list_fmap].
    - split; inversion 1; constructor.
    - split; inversion 1; subst; (constructor; [by apply Request_load_Ok|by apply IH]). }
  destruct (py_map Request_load _) as [rs|e].
  - destruct Hcase as [-> Hs]. split; [|split].
    + intros rs' Hrs'. apply Hiff in Hrs'. by injection Hrs' as <-.
    + intros Hno. exfalso. apply (Hno rs). by apply Hiff.
    + intros found [= <-]. exists rs. split; [by apply Hiff|done].
  - destruct Hcase as [-> Hs]. split; [|split].
    + intros rs' Hrs'. by apply Hiff in Hrs'.
    + done.
    + done.
Qed.

(** ** One bin and another *)

(** With nothing interfering, for names without colon: whatever a call of
    [create_request] on one bin does, [lookup_bin] of a bin of another name
    gives afterwards what it gave before. *)
Theorem create_request_leaves_other_bins (bin : Bin) (input : string) (other : string)
    (w : World) :
  quiet w ->
  colon_free (Bin_name bin) -> colon_free other -> other <> Bin_name bin ->
  (lookup_bin self other (create_request self bin input w).2).1
  = (lookup_bin self other w).1.
Proof.
  intros Hq Hbin Hother Hne.
  destruct (create_request_quiet bin input w Hq) as (res & w' & Hrun & Hq' & Hc & _).
  destruct (create_request_effects bin input w Hq) as (res' & w'' & Hrun' & Hframe & _).
  rewrite Hrun in Hrun'. injection Hrun' as <- <-.
  rewrite Hrun. cbn [snd].
  set (rid := entropy (drawn w) 6) in *.
  destruct (key_schema_injective other (Bin_name bin) "" rid Hother Hbin)
    as (_ & Hll & _ & Hbl & Hbr & Hlr).
  assert (Hsame : forall k,
             k = _key_bin self other \/ k = _key_request_list self other \/
             (exists x, k = _key_request self other x) ->
             live w' k = live w k).
  { intros k Hk. apply live_of_store; [|done]. apply Hframe.
    - destruct Hk as [->|[->|[x ->]]]; [done|done|].
      destruct (key_schema_injective other (Bin_name bin) x rid Hother Hbin)
        as (_ & _ & Hrr & _). intros E. by apply Hrr in E as [? _].
    - destruct Hk as [->|[->|[x ->]]]; [done| |].
      + intros E. by apply Hll in E.
      + destruct (key_schema_injective (Bin_name bin) other "" x Hbin Hother)
          as (_ & _ & _ & _ & _ & Hlr'). intros E. by symmetry in E.
    - destruct Hk as [->|[->|[x ->]]]; intros E; symmetry in E.
      + by apply key_count_bin in E.
      + by apply key_count_list in E.
      + by apply key_count_request in E. }
  apply lookup_bin_agree; try done.
  - apply Hsame. by left.
  - apply Hsame. right. by left.
  - intros x. unfold bulk_of. rewrite Hsame; [done|]. right. right. by exists x.
Qed.

(** ** The name and the lifetime of a bin *)

(** With nothing interfering and a retention of zero or less, for which
    the expiry is still a timestamp the server takes: the bin that
    [create_bin] returns cannot be read back, [lookup_bin] of its name
    raises [KeyError] right away. *)
Theorem create_bin_without_ttl (private : bool) (w : World) :
  quiet w -> bin_ttl self <= 0 -> expirable (clock w + bin_ttl self) ->
  exists bin w1 w2,
    create_bin self private w = (Ok bin, w1) /\
    lookup_bin self (Bin_name bin) w1 = (Raise KeyError, w2).
Proof.
  intros Hq Httl _.
  destruct (create_bin_quiet private w Hq) as (w1 & Hrun & Hq1 & Hc1 & _ & Hs1).
  set (bin := MkBin (entropy (drawn w) 8) (clock w) private []) in *.
  destruct (lookup_bin_quiet (Bin_name bin) w1 Hq1) as (res & w2 & Hlook & _ & _ & Hcase).
  rewrite (live_after w w1 _ _ _ Hs1 Hc1), decide_True in Hcase by done.
  assert (Hdead : is_live (clock w)
            (Entry (RString (Bin_dump bin)) (Some (Bin_created bin + bin_ttl self))) = false).
  { unfold is_live. simpl. apply Z.ltb_ge. lia. }
  rewrite Hdead in Hcase. destruct Hcase as [-> _].
  by exists bin, w1, w2.
Qed.

(** [create_bin] does not look whether the name is in use. With nothing
    interfering: when the name the generator hands out has a live index
    list with its records, [lookup_bin] of the new bin returns it with the
    requests of that list. *)
Theorem create_bin_on_taken_name (private : bool) (w : World) (rs : list Request) :
  let bin := MkBin (entropy (drawn w) 8) (clock w) private [] in
  serving self w bin rs ->
  exists w1 w2,
    create_bin self private w = (Ok bin, w1) /\
    lookup_bin self (Bin_name bin) w1 = (Ok (set_requests (rev rs) bin), w2).
Proof.
  intros bin (Hq & Hnow & Hok & Hlist & Hrs).
  destruct (create_bin_quiet private w Hq) as (w1 & Hrun & Hq1 & Hc1 & _ & Hs1).
  fold bin in Hrun, Hs1.
  assert (Hkl : live w1 (_key_request_list self (Bin_name bin))
                = live w (_key_request_list self (Bin_name bin))).
  { rewrite (live_after w w1 _ _ _ Hs1 Hc1). by rewrite decide_False by apply key_bin_list. }
  assert (Hserv : serving self w1 bin rs).
  { split; [done|]. split; [by rewrite Hc1|].
    unfold index_ok, listing. rewrite Hkl. split; [done|]. split; [done|].
    eapply Forall_impl; [exact Hrs|]. intros r Hr. simpl in Hr. unfold bulk_of.
    rewrite (live_after w w1 _ _ _ Hs1 Hc1).
    by rewrite decide_False by apply key_bin_request. }
  destruct (lookup_bin_serving w1 bin rs (Some (Bin_created bin + bin_ttl self)) Hserv)
    as (w2 & Hlook & _).
  { rewrite (live_after w w1 _ _ _ Hs1 Hc1), decide_True by done.
    unfold is_live. simpl. by rewrite (proj2 (Z.ltb_lt _ _)) by (simpl in Hnow; lia). }
  by exists w1, w2.
Qed.

Lemma expires_at_live (w : World) (k : string) (e : entry) :
  live w k = Some e -> expires_at w k = expiry e.
Proof.
  intros Hk. apply live_Some_is_live in Hk as [Hk _]. unfold expires_at. by rewrite Hk.
Qed.

(** An entry that is live now and expires after [clock + dt] is live then. *)
Lemma live_later (w : World) (k : string) (e : entry) (dt t : Z) :
  live w k = Some e -> expires_at w k = Some t -> clock w + dt < t ->
  live (later dt w) k = Some e.
Proof.
  intros Hk Ht Hlt. rewrite (expires_at_live _ _ _ Hk) in Ht.
  apply live_Some_is_live in Hk as [Hk _].
  unfold live, later. cbn [store clock]. rewrite Hk.
  unfold is_live. rewrite Ht. by rewrite (proj2 (Z.ltb_lt _ _)).
Qed.

(** Nothing comes to life by waiting. *)
Lemma live_later_sub (w : World) (k : string) (dt : Z) :
  0 <= dt -> live (later dt w) k = None \/ live (later dt w) k = live w k.
Proof.
  intros Hdt. unfold live, later. cbn [store clock].
  destruct (store w !! k) as [e|]; [|by left].
  unfold is_live. destruct (expiry e) as [t|]; [|by right].
  destruct (clock w + dt <? t)%Z eqn:E; [|by left].
  apply Z.ltb_lt in E. right. by rewrite (proj2 (Z.ltb_lt _ _)) by lia.
Qed.

Lemma stamped_step (w w' : World) (bin : Bin) (rs : list Request) (input : string)
    (v : option Request) :
  serving self w bin rs -> stamped self w bin rs ->
  create_request self bin input w = (Ok v, w') ->
  stamped self w' bin (rs ++ [MkRequest (entropy (drawn w) 6) input]).
Proof.
  intros (Hq & _ & _ & _ & Hrs) [_ Hst] Hrun.
  apply create_request_ok in Hrun
    as (z & _ & Hfree & _ & _ & _ & _ & _ & _ & Hs); [|done].
  split.
  - intros _. unfold expires_at. by rewrite Hs, after_request_index.
  - apply Forall_app. split.
    + apply Forall_forall. intros r Hr.
      rewrite Forall_forall in Hrs, Hst. specialize (Hrs r Hr). specialize (Hst r Hr).
      simpl in Hrs, Hst.
      assert (Hne : _key_request self (Bin_name bin) (Request_id r)
                    <> _key_request self (Bin_name bin) (entropy (drawn w) 6)).
      { intros E. unfold bulk_of in Hrs. rewrite E, Hfree in Hrs. discriminate Hrs. }
      unfold expires_at in *. rewrite Hs, after_request_other; [done|done| |].
      * intros E. symmetry in E. by apply key_list_request in E.
      * intros E. symmetry in E. by apply key_count_request in E.
    + repeat constructor. unfold expires_at. cbn [Request_id].
      by rewrite Hs, after_request_record.
Qed.

Lemma stamped_run (bin : Bin) (inputs : list string) :
  forall (w w' : World) (rs : list Request),
    serving self w bin rs -> stamped self w bin rs ->
    create_all self ((fun p => (bin, p)) <$> inputs) w = (Ok tt, w') ->
    stamped self w' bin (rs ++ made (drawn w) inputs).
Proof.
  induction inputs as [|p ps IH]; intros w w' rs Hserv Hst Hrun.
  - simpl in Hrun. injection Hrun as <-. simpl. by rewrite app_nil_r.
  - cbn [fmap list_fmap create_all] in Hrun. rewrite bind_run in Hrun.
    destruct (create_request self bin p w) as [[v|e] w1] eqn:Hcall; [|done].
    destruct (serving_step w w1 bin rs p v Hserv Hcall) as (Hserv1 & Hd & _).
    pose proof (stamped_step w w1 bin rs p v Hserv Hst Hcall) as Hst1.
    pose proof (IH w1 w' _ Hserv1 Hst1 Hrun) as Hst'.
    rewrite Hd in Hst'. simpl. by rewrite <- app_assoc in Hst'.
Qed.

(** What is served and stamped now is served [dt] seconds later, as long as
    the bin has not expired by then. *)
Lemma serving_later (w : World) (bin : Bin) (rs : list Request) (dt : Z) :
  serving self w bin rs -> stamped self w bin rs ->
  0 <= dt -> clock w + dt < Bin_created bin + bin_ttl self ->
  serving self (later dt w) bin rs.
Proof.
  intros (Hq & Hnow & Hok & Hlist & Hrs) [Hstl Hstr] Hdt Hlt.
  split; [done|]. split; [done|].
  set (kl := _key_request_list self (Bin_name bin)) in *.
  assert (Hkl : index_ok (later dt w) kl = true /\ listing (later dt w) kl = Request_id <$> rs).
  { destruct rs as [|r rs].
    - destruct (live_later_sub w kl dt Hdt) as [E|E];
        unfold index_ok, listing in *; rewrite E; done.
    - unfold index_ok, listing in *.
      destruct (live w kl) as [e|] eqn:Hl; [|done].
      rewrite (live_later w kl e dt _ Hl (Hstl ltac:(done))) by lia. done. }
  destruct Hkl as [Hok' Hlist']. split; [done|]. split; [done|].
  apply Forall_forall. intros r Hr.
  rewrite Forall_forall in Hrs, Hstr. specialize (Hrs r Hr). specialize (Hstr r Hr).
  simpl in Hrs, Hstr. unfold bulk_of in *.
  destruct (live w (_key_request self (Bin_name bin) (Request_id r))) as [e|] eqn:Hl; [|done].
  by rewrite (live_later w _ e dt _ Hl Hstr) by lia.
Qed.

(** With nothing interfering but time passing: a bin made by [create_bin]
    under a fresh name, with the requests that successful calls of
    [create_request] added, is read back whole and newest first at every
    moment before [created + ttl], and from then on [lookup_bin] raises
    [KeyError]. *)
Theorem lookup_bin_until_expiry (private : bool) (inputs : list string)
    (w w1 w2 : World) (bin : Bin) (dt : Z) :
  quiet w -> 0 < bin_ttl self ->
  live w (_key_request_list self (entropy (drawn w) 8)) = None ->
  create_bin self private w = (Ok bin, w1) ->
  create_all self ((fun p => (bin, p)) <$> inputs) w1 = (Ok tt, w2) ->
  0 <= dt ->
  (clock w + dt < Bin_created bin + bin_ttl self ->
   (lookup_bin self (Bin_name bin) (later dt w2)).1
   = Ok (set_requests (rev (made (drawn w1) inputs)) bin)) /\
  (Bin_created bin + bin_ttl self <= clock w + dt ->
   (lookup_bin self (Bin_name bin) (later dt w2)).1 = Raise KeyError).
Proof.
  intros Hq Httl Hfresh Hbin Hrun Hdt.
  destruct (create_bin_quiet private w Hq) as (w1' & E & Hq1 & Hc1 & _ & Hs1).
  rewrite Hbin in E. injection E as Ebin <-.
  assert (Hname : Bin_name bin = entropy (drawn w) 8) by (by rewrite Ebin).
  assert (Hcreated : Bin_created bin = clock w) by (by rewrite Ebin).
  rewrite <- Ebin in Hs1. clear Ebin.
  set (t := Bin_created bin + bin_ttl self) in *.
  set (kb := _key_bin self (Bin_name bin)) in *.
  assert (Hkb1 : live w1 kb = Some (Entry (RString (Bin_dump bin)) (Some t))).
  { rewrite (live_after w w1 _ _ _ Hs1 Hc1), decide_True by done.
    unfold is_live. simpl. by rewrite (proj2 (Z.ltb_lt _ _)) by lia. }
  assert (Hkl1 : live w1 (_key_request_list self (Bin_name bin)) = None).
  { rewrite (live_after w w1 _ _ _ Hs1 Hc1), decide_False by apply key_bin_list.
    by rewrite Hname. }
  assert (Hserv1 : serving self w1 bin []).
  { split; [done|]. split; [lia|]. unfold index_ok, listing. rewrite Hkl1.
    split; [done|]. split; [done|]. constructor. }
  assert (Hst1 : stamped self w1 bin []) by (split; [done|constructor]).
  destruct (serving_run bin inputs w1 w2 [] Hserv1 Hrun) as [Hserv2 Hkb2].
  pose proof (stamped_run bin inputs w1 w2 [] Hserv1 Hst1 Hrun) as Hst2.
  simpl in Hserv2, Hst2. fold kb in Hkb2. rewrite Hkb1 in Hkb2.
  assert (Hc2 : clock w2 = clock w).
  { destruct Hserv2 as (Hq2 & _). clear -Hrun Hq1 Hc1.
    revert w1 Hq1 Hc1 Hrun. induction inputs as [|p ps IH]; intros w1 Hq1 Hc1 Hrun.
    - simpl in Hrun. by injection Hrun as <-.
    - cbn [fmap list_fmap create_all] in Hrun. rewrite bind_run in Hrun.
      destruct (create_request self bin p w1) as [[v|e] w1'] eqn:Hcall; [|done].
      apply create_request_ok in Hcall
        as (_ & _ & _ & _ & _ & _ & Hq' & Hc' & _ & _); [|done].
      apply (IH w1'); [done|congruence|done]. }
  split.
  - intros Hlt.
    assert (Hserv : serving self (later dt w2) bin (made (drawn w1) inputs))
      by (apply serving_later; [done|done|done|lia]).
    destruct (lookup_bin_serving (later dt w2) bin _ (Some t) Hserv) as (w3 & -> & _);
      [|done].
    apply (live_later w2 kb _ dt t); [done| |lia].
    by rewrite (expires_at_live _ _ _ Hkb2).
  - intros Hge.
    assert (Hqd : quiet (later dt w2)) by (by destruct Hserv2).
    destruct (lookup_bin_quiet (Bin_name bin) (later dt w2) Hqd)
      as (res & w3 & -> & _ & _ & Hcase).
    assert (Hdead : live (later dt w2) kb = None).
    { apply live_Some_is_live in Hkb2 as [Hkb2 _].
      unfold live, later. cbn [store clock]. rewrite Hkb2.
      unfold is_live. simpl. by rewrite (proj2 (Z.ltb_ge _ _)) by lia. }
    fold kb in Hcase. rewrite Hdead in Hcase. by destruct Hcase.
Qed.

(** ** What [count_bins] counts *)

Lemma matches_star (s : list ascii) : matches [TStar] s = true.
Proof.
  induction s as [|c s IH]; [done|].
  cbn [matches] in *. by rewrite IH, orb_true_r.
Qed.

Lemma matches_prefix (p s : list ascii) :
  matches ((TLit <$> p) ++ [TStar]) s = true <-> exists rest, s = p ++ rest.
Proof.
  revert s. induction p as [|c p IH]; intros s.
  - split; [by exists s|]. intros _. apply matches_star.
  - cbn [app fmap list_fmap matches]. destruct s as [|d s].
    + split; [done|]. by intros [rest Hrest].
    + rewrite andb_true_iff, bool_decide_eq_true, IH. split.
      * intros [-> [rest ->]]. by exists rest.
      * intros [rest Hrest]. injection Hrest as -> ->. split; [done|by exists rest].
Qed.

Lemma count_bins_glob (k : string) :
  Forall plain (list_ascii_of_string (prefix self)) ->
  glob (prefix self ++ "_*")%string k = true <->
  exists rest, k = (prefix self ++ "_" ++ rest)%string.
Proof.
  intros Hplain. unfold glob.
  assert (Hp : Forall plain (list_ascii_of_string (prefix self) ++ ["_"%char])).
  { apply Forall_app. split; [done|]. by repeat constructor. }
  change "_*"%string with ("_" ++ "*")%string.
  rewrite <- append_assoc, list_ascii_of_append.
  change (list_ascii_of_string "*") with ["*"%char].
  rewrite list_ascii_of_append. change (list_ascii_of_string "_") with ["_"%char].
  rewrite tokens_plain by done. change (tokens Outside ["*"%char]) with [TStar].
  rewrite matches_prefix. split.
  - intros [rest Hrest]. exists (string_of_list_ascii rest).
    rewrite <- (string_of_list_ascii_of_string k), Hrest.
    rewrite <- app_assoc. cbn [app].
    rewrite <- (list_ascii_of_string_of_list_ascii rest) at 1.
    change ("_"%char :: list_ascii_of_string (string_of_list_ascii rest))
      with (list_ascii_of_string ("_" ++ string_of_list_ascii rest)%string).
    by rewrite <- list_ascii_of_append, string_of_list_ascii_of_string.
  - intros [rest ->]. exists (list_ascii_of_string rest).
    rewrite <- app_assoc. cbn [app]. by rewrite list_ascii_of_append.
Qed.

Lemma live_keys_sublist (w : World) (pattern : string) :
  forall l : list (string * entry),
    omap (fun kv : string * entry =>
            if is_live (clock w) kv.2 && glob pattern kv.1 then Some kv.1 else None) l
    `sublist_of` l.*1.
Proof.
  induction l as [|kv l IH]; [constructor|].
  cbn. destruct (is_live (clock w) kv.2 && glob pattern kv.1); by constructor.
Qed.

Lemma live_keys_elem (w : World) (pattern k : string) :
  k ∈ live_keys w pattern <-> is_Some (live w k) /\ glob pattern k = true.
Proof.
  unfold live_keys. rewrite list_elem_of_omap. split.
  - intros [[k' e] [Hin Hf]]. apply elem_of_map_to_list in Hin. simpl in Hf.
    destruct (is_live (clock w) e) eqn:Hl; [|done].
    destruct (glob pattern k') eqn:Hg; [|done].
    injection Hf as <-. split; [|done]. unfold live. rewrite Hin, Hl. by eexists.
  - intros [[e He] Hg]. apply live_Some_is_live in He as [Hs Hl].
    exists (k, e). split; [by apply elem_of_map_to_list|]. simpl. by rewrite Hl, Hg.
Qed.

(** For a prefix without pattern characters and with nothing interfering,
    [count_bins] returns the number of live keys, of whatever kind and
    whoever wrote them, that start with the prefix and an underscore; it
    changes nothing in the store. *)
Theorem count_bins_counts_underscore_keys (w : World) :
  Forall plain (list_ascii_of_string (prefix self)) ->
  quiet w ->
  exists (ks : list string) (w' : World),
    count_bins self w = (Ok (length ks), w') /\
    NoDup ks /\
    (forall k, k ∈ ks <->
       is_Some (live w k) /\ exists rest, k = (prefix self ++ "_" ++ rest)%string) /\
    store w' = store w /\
    sent w w' = [(KEYS (prefix self ++ "_*")%string, Multi (Some <$> ks))].
Proof.
  intros Hplain Hq.
  exists (live_keys w (prefix self ++ "_*")%string). eexists.
  unfold count_bins. rewrite bind_run, redis_keys_quiet by done.
  split; [reflexivity|]. split.
  { eapply sublist_NoDup; [apply (NoDup_fst_map_to_list (store w))|].
    apply live_keys_sublist. }
  split.
  { intros k. rewrite live_keys_elem. by rewrite count_bins_glob. }
  split; [done|].
  unfold sent, record. cbn [log]. by rewrite drop_app_length.
Qed.

(** ** The counter and the clock *)

Lemma live_later_permanent (w : World) (k : string) (dt : Z) :
  counter_expiry w k = None -> 0 <= dt -> live (later dt w) k = live w k.
Proof.
  unfold counter_expiry, live, later. cbn [store clock]. intros He Hdt.
  destruct (store w !! k) as [e|]; [|done].
  unfold is_live in *. destruct (expiry e) as [t|] eqn:Ht; [|done].
  destruct (clock w <? t)%Z eqn:E.
  - rewrite Ht in He. discriminate He.
  - apply Z.ltb_ge in E. by rewrite (proj2 (Z.ltb_ge _ _)) by lia.
Qed.

(** The counter key gets no expiry from this code: when it has none at
    first, the count after a run of calls, [m] of which went through, is
    still the count before plus [m] however much later it is read, long
    after the bins of these requests have expired. *)
Theorem count_requests_outlives_bins (calls : list (Bin * string)) (w w' : World)
    (c : Z) (m : nat) (dt : Z) :
  quiet w ->
  counter_expiry w (_request_count_key self) = None ->
  (count_requests self w).1 = Ok c ->
  attempt_all self calls w = (Ok m, w') ->
  0 <= dt ->
  (count_requests self (later dt w')).1 = Ok (c + Z.of_nat m).
Proof.
  intros Hq He Hc Hrun Hdt.
  destruct (attempt_all_counter calls w w' m Hq Hrun) as (Hq' & _ & Hzero & Hpos).
  assert (Hqd : quiet (later dt w')) by done.
  assert (He' : counter_expiry w' (_request_count_key self) = None).
  { destruct m as [|m].
    - unfold counter_expiry. by rewrite Hzero.
    - destruct Hpos as (z & _ & _ & ->); done. }
  rewrite (count_requests_live w' (later dt w') Hq' Hqd)
    by (by apply live_later_permanent).
  destruct m as [|m].
  - rewrite Z.add_0_r, <- Hc. apply count_requests_live; auto.
  - destruct Hpos as (z & Hz & Hz' & _); [done|].
    rewrite (count_requests_counter w z Hq Hz) in Hc. injection Hc as <-.
    by apply count_requests_counter.
Qed.

(** ** [create_bin] whatever happens *)

(** In every world, whatever happens between its commands, when the expiry
    is a timestamp the server takes: [create_bin] returns the bin it built
    and has sent two commands, the unconditional write of the details and
    the expiry; what the server answered to the second, 1 or 0 for a key
    that was gone again, makes no difference to the call. *)
Theorem create_bin_always_returns (private : bool) (w : World) :
  let bin := MkBin (entropy (drawn w) 8) (clock w) private [] in
  let key := _key_bin self (Bin_name bin) in
  expirable (clock w + bin_ttl self) ->
  exists (w' : World) (z : Z),
    create_bin self private w = (Ok bin, w') /\
    drawn w' = S (drawn w) /\
    (z = 0 \/ z = 1) /\
    sent w w' = [(SET key (Bin_dump bin), Status);
                 (EXPIREAT key (Bin_created bin + bin_ttl self), Int z)].
Proof.
  intros bin key _. unfold create_bin, Bin_new, now, tinyid, ret.
  rewrite !bind_run. fold bin. fold key.
  set (w0 := advance w).
  assert (Hlog0 : log w0 = log w) by done.
  assert (Hd0 : drawn w0 = S (drawn w)) by done.
  clearbody w0.
  unfold redis_set, execute_command. cbn [serve].
  set (w1 := record _ _ _).
  assert (Hlog1 : log w1 = log w ++ [(SET key (Bin_dump bin), Status)]).
  { subst w1. cbn [log record put set_store]. by rewrite log_absorb, Hlog0. }
  assert (Hd1 : drawn w1 = S (drawn w)).
  { subst w1. cbn [drawn record put set_store]. by rewrite drawn_absorb. }
  clearbody w1.
  rewrite bind_run. unfold redis_expireat, integer_reply. rewrite bind_run.
  unfold execute_command. cbn [serve].
  pose proof (log_absorb w1) as Hla. pose proof (drawn_absorb w1) as Hda.
  destruct (live (absorb w1) key) as [e|].
  - eexists _, 1. split; [reflexivity|]. cbn [drawn log record put set_store].
    split; [congruence|]. split; [by right|].
    apply sent_app. cbn [log record put set_store].
    by rewrite Hla, Hlog1, <- app_assoc.
  - eexists _, 0. split; [reflexivity|]. cbn [drawn log record put set_store].
    split; [congruence|]. split; [by left|].
    apply sent_app. cbn [log record put set_store].
    by rewrite Hla, Hlog1, <- app_assoc.
Qed.

End Properties.

(** * The properties on explicit inputs *)

Lemma run_eq {A} (m : io A) (w : World) (r : result A) :
  (m w).1 = r -> m w = (r, (m w).2).
Proof. intros <-. by destruct (m w). Qed.

(** ** The retry loop *)

(** All 50 conditional writes refused: 50 commands sent, 51 identifiers
    drawn, the store as it was. *)
Example retry_exhausted :
  let out := Run.create_request Run.bin0 "hello" Run.occupied in
  out.1 = Raise RuntimeError /\
  length (log out.2) = 50%nat /\
  drawn out.2 = 52%nat /\
  map_to_list (store out.2) = map_to_list (store Run.occupied).
Proof. vm_compute. done. Qed.

(** The key is freed before the third try: the loop stops there. The
    record lies under the key of the first identifier, ["id1"], and holds
    the request with the third, ["id3"], which is the one the index gets;
    [lookup_bin] then finds no record behind it. *)
Example retry_after_eviction :
  let out := Run.create_request Run.bin0 "hello" Run.evicted_later in
  out.1 = Ok None /\
  fst <$> log out.2 =
    [SETNX "requestbin:bins:id0:requests:id1" (Reference.pack_request (MkRequest "id1" "hello"));
     SETNX "requestbin:bins:id0:requests:id1" (Reference.pack_request (MkRequest "id2" "hello"));
     SETNX "requestbin:bins:id0:requests:id1" (Reference.pack_request (MkRequest "id3" "hello"));
     EXPIREAT "requestbin:bins:id0:requests:id1" 173802;
     RPUSH "requestbin:bins:id0:requests" "id3";
     EXPIREAT "requestbin:bins:id0:requests" 173801;
     SETNX "requestbin:requests" "0";
     INCR "requestbin:requests"] /\
  store out.2 !! "requestbin:bins:id0:requests:id3" = None /\
  (Run.lookup_bin "id0" out.2).1 = Raise KeyError.
Proof. vm_compute. done. Qed.

(** ** Staggered expiration *)

Lemma expiration_staggering_witness :
  expires_at Run.with_bin "requestbin:bins:id0:details" = Some 173800 /\
  expires_at Run.with_request "requestbin:bins:id0:requests" = Some 173801 /\
  expires_at Run.with_request "requestbin:bins:id0:requests:id1" = Some 173802.
Proof.
  assert (Hbin : (Run.create_bin false Run.empty).1 = Ok Run.bin0)
    by (vm_compute; reflexivity).
  assert (Hreq : (Run.create_request Run.bin0 "hello" Run.with_bin).1 = Ok None)
    by (vm_compute; reflexivity).
  assert (Hq : quiet Run.with_bin) by (vm_compute; reflexivity).
  destruct (expiration_staggering (H := reference_models) Run.storage false "hello"
              Run.empty Run.with_bin Run.with_bin Run.with_request Run.bin0 None
              eq_refl (run_eq _ _ _ Hbin) Hq (run_eq _ _ _ Hreq))
    as (_ & Hb & Hl & Hr & _).
  split; [exact Hb|]. split; [exact Hl|exact Hr].
Defined.

(** ** Reading a bin *)

Lemma create_bin_then_lookup_witness :
  exists bin' w2,
    Run.lookup_bin "id0" Run.with_bin = (Ok bin', w2) /\
    Bin_name bin' = "id0" /\
    Bin_created bin' = 1000 /\
    Bin_private bin' = false /\
    Bin_requests bin' = [].
Proof.
  assert (Hbin : (Run.create_bin false Run.empty).1 = Ok Run.bin0)
    by (vm_compute; reflexivity).
  apply (create_bin_then_lookup (lossless := reference_lossless) Run.storage false
           Run.empty Run.with_bin Run.bin0).
  - reflexivity.
  - vm_compute. reflexivity.
  - exact (run_eq _ _ _ Hbin).
  - vm_compute. reflexivity.
Defined.

(** The claim C8 at [Run.name_reused]: the retention is positive, nothing
    interferes and [create_bin] returns a bin, under the name ["id0"], which
    is in use; [lookup_bin] of the name right after succeeds, with the three
    requests stored under that name and not with none. *)
Lemma create_bin_then_lookup_counterexample :
  let made := Run.create_bin true Run.name_reused in
  let out := Run.lookup_bin "id0" made.2 in
  0 < bin_ttl Run.storage /\
  quiet Run.name_reused /\
  made.1 = Ok (MkBin "id0" 1000 true []) /\
  out.1 = Ok (MkBin "id0" 1000 true (rev Run.three_requests)) /\
  ~ (exists found, out.1 = Ok found /\ Bin_requests found = []).
Proof.
  intros made out.
  assert (Hout : out.1 = Ok (MkBin "id0" 1000 true (rev Run.three_requests)))
    by (vm_compute; reflexivity).
  split; [vm_compute; reflexivity|]. split; [reflexivity|].
  split; [vm_compute; reflexivity|]. split; [exact Hout|].
  intros (found & Hfound & Hnone). rewrite Hout in Hfound.
  injection Hfound as <-. discriminate Hnone.
Qed.

Lemma lookup_bin_not_found_witness :
  exists w1 w2,
    Run.lookup_bin "id0" Run.corrupt = (Raise KeyError, w1) /\
    store w1 = delete "requestbin:bins:id0:details" (store Run.corrupt) /\
    live w1 "requestbin:bins:id0:details" = None /\
    Run.lookup_bin "id0" w1 = (Raise KeyError, w2).
Proof.
  apply (lookup_bin_not_found (H := reference_models) Run.storage "id0" Run.corrupt).
  - reflexivity.
  - right. exists "garbage", None. split; vm_compute; reflexivity.
Defined.

(** The claim C1 at [Run.missing_record]: the details record deserialises,
    the index holds two identifiers, the second has no record; the read
    fails as a whole and the details key is deleted. *)
Lemma lookup_bin_skips_missing_counterexample :
  let w := Run.missing_record in
  let out := Run.lookup_bin "id0" w in
  (bulk_of w "requestbin:bins:id0:details" ≫= Reference.unpack_bin) = Some Run.bin0 /\
  listing w "requestbin:bins:id0:requests" = ["id1"; "id2"] /\
  live w "requestbin:bins:id0:requests:id2" = None /\
  out.1 = Raise KeyError /\
  store out.2 !! "requestbin:bins:id0:details" = None /\
  ~ (exists b, out.1 = Ok b /\ is_Some (live out.2 "requestbin:bins:id0:details")).
Proof.
  intros w out.
  assert (Hout : out.1 = Raise KeyError) by (vm_compute; reflexivity).
  repeat split; try (vm_compute; reflexivity).
  intros (b & Hb & _). rewrite Hout in Hb. discriminate Hb.
Qed.

Lemma lookup_bin_missing_record_witness :
  exists w',
    Run.lookup_bin "id0" Run.missing_record = (Raise KeyError, w') /\
    store w' = delete "requestbin:bins:id0:details" (store Run.missing_record) /\
    live w' "requestbin:bins:id0:details" = None.
Proof.
  apply (lookup_bin_missing_record (H := reference_models) Run.storage "id0"
           Run.missing_record (Reference.pack_bin Run.bin0) Run.bin0
           (Some 173800) (Some 173801) ["id1"; "id2"] "id2").
  - reflexivity.
  - vm_compute. reflexivity.
  - vm_compute. reflexivity.
  - vm_compute. reflexivity.
  - apply list_elem_of_further, list_elem_of_here.
  - vm_compute. reflexivity.
Defined.


(** ** The global counter *)

Lemma count_requests_monotone_witness :
  (Run.count_requests Run.occupied).1 = Ok 0 /\
  (attempt_all (H := reference_models) Run.storage Run.mixed_calls Run.occupied).1
  = Ok 2%nat /\
  (Run.count_requests Run.after_mixed).1 = Ok 2.
Proof.
  assert (Hc : (Run.count_requests Run.occupied).1 = Ok 0) by (vm_compute; reflexivity).
  assert (Hrun : (attempt_all (H := reference_models) Run.storage Run.mixed_calls
                    Run.occupied).1 = Ok 2%nat)
    by (vm_compute; reflexivity).
  destruct (count_requests_monotone (H := reference_models) Run.storage Run.mixed_calls
              Run.occupied Run.after_mixed 0 2 eq_refl Hc (run_eq _ _ _ Hrun))
    as [Hafter _].
  split; [exact Hc|]. split; [exact Hrun|exact Hafter].
Defined.

(** ** What [create_request] gives back *)

(** The claim C9 on the bin just made: the call goes through and what it
    returns is [None], no request. *)
Lemma create_request_returns_request_counterexample :
  let out := Run.create_request Run.bin0 "hello" Run.with_bin in
  out.1 = Ok None /\ ~ (exists r : Request, out.1 = Ok (Some r)).
Proof.
  intros out.
  assert (Hout : out.1 = Ok None) by (vm_compute; reflexivity).
  split; [exact Hout|]. intros [r Hr]. rewrite Hout in Hr. discriminate Hr.
Qed.

Lemma create_request_returns_none_witness :
  drawn Run.with_request = S (drawn Run.with_bin) /\
  store Run.with_request !! "requestbin:bins:id0:requests:id1" =
    Some (Entry (RString (Reference.pack_request (MkRequest "id1" "hello")))
            (Some 173802)) /\
  store Run.with_request !! "requestbin:bins:id0:requests" =
    Some (Entry (RList ["id1"]) (Some 173801)).
Proof.
  assert (Hreq : (Run.create_request Run.bin0 "hello" Run.with_bin).1 = Ok None)
    by (vm_compute; reflexivity).
  assert (Hq : quiet Run.with_bin) by (vm_compute; reflexivity).
  destruct (create_request_returns_none (H := reference_models) Run.storage Run.bin0
              "hello" Run.with_bin Run.with_request None (run_eq _ _ _ Hreq))
    as [_ Hrest].
  destruct (Hrest Hq) as (Hd & Hr & Hl).
  split; [exact Hd|]. split; [exact Hr|exact Hl].
Defined.

(** ** A bin that is not there *)

Lemma create_request_without_bin_witness :
  exists w',
    Run.create_request Run.ghost "hello" Run.empty = (Ok None, w') /\
    store w' !! "requestbin:bins:ghost:requests:id0" =
      Some (Entry (RString (Reference.pack_request (MkRequest "id0" "hello")))
              (Some 173302)) /\
    store w' !! "requestbin:bins:ghost:requests" =
      Some (Entry (RList ["id0"]) (Some 173301)) /\
    counter w' "requestbin:requests" = Some 1 /\
    live w' "requestbin:bins:ghost:details" = None.
Proof.
  destruct (create_request_without_bin (H := reference_models) Run.storage Run.ghost
              "hello" Run.empty 0)
    as (w' & Hrun & Hr & Hl & Hc & Hb & _).
  - reflexivity.
  - vm_compute. reflexivity.
  - vm_compute. reflexivity.
  - vm_compute. reflexivity.
  - vm_compute. reflexivity.
  - vm_compute. reflexivity.
  - exists w'. split; [exact Hrun|]. split; [exact Hr|]. split; [exact Hl|].
    split; [exact Hc|exact Hb].
Defined.

(** ** Counting bins *)

(** C6, where the code departs from it. Two bins are made in the empty
    store of the deployment with prefix ["requestbin"]; both details keys
    are live, the pattern of [count_bins] matches neither, and [count_bins]
    returns 0. *)
Theorem count_bins_misses_live_bins :
  let w := Run.with_two_bins in
  is_Some (live w (_key_bin Run.storage "id0")) /\
  is_Some (live w (_key_bin Run.storage "id1")) /\
  glob "requestbin_*" (_key_bin Run.storage "id0") = false /\
  glob "requestbin_*" (_key_bin Run.storage "id1") = false /\
  (Run.count_bins w).1 = Ok 0%nat.
Proof.
  intros w.
  split; [eexists; vm_compute; reflexivity|].
  split; [eexists; vm_compute; reflexivity|].
  repeat split; vm_compute; reflexivity.
Qed.

(** ** More of the storage layer *)

Lemma colon_free_id0 : colon_free "id0".
Proof. unfold colon_free. simpl. by repeat constructor. Qed.

Lemma colon_free_id1 : colon_free "id1".
Proof. unfold colon_free. simpl. by repeat constructor. Qed.

Lemma plain_requestbin : Forall plain (list_ascii_of_string (prefix Run.storage)).
Proof. simpl. repeat (constructor; [by repeat split|]). constructor. Qed.

Lemma key_schema_injective_witness :
  _key_bin Run.storage "id0" <> _key_request Run.storage "id1" "id7" /\
  (_key_request Run.storage "id0" "id7" = _key_request Run.storage "id1" "id7" ->
   "id0" = "id1" /\ "id7" = "id7").
Proof.
  destruct (key_schema_injective Run.storage "id0" "id1" "id7" "id7"
              colon_free_id0 colon_free_id1)
    as (_ & _ & Hr & _ & Hne & _).
  split; [exact Hne|exact Hr].
Defined.

Lemma create_request_carries_last_id_witness :
  exists k,
    (k < 50)%nat /\ drawn Run.after_eviction = (1 + 1 + k)%nat /\
    (SETNX (_key_request Run.storage "id0" (Reference.entropy 1 6))
       (Reference.pack_request (MkRequest (Reference.entropy (1 + k) 6) "hello")), Int 1)
      ∈ sent Run.evicted_later Run.after_eviction /\
    exists n, (RPUSH (_key_request_list Run.storage "id0") (Reference.entropy (1 + k) 6), Int n)
                ∈ sent Run.evicted_later Run.after_eviction.
Proof.
  assert (Hrun : (Run.create_request Run.bin0 "hello" Run.evicted_later).1 = Ok None)
    by (vm_compute; reflexivity).
  exact (create_request_carries_last_id (H := reference_models) Run.storage Run.bin0
           "hello" Run.evicted_later Run.after_eviction None (run_eq _ _ _ Hrun)).
Defined.

Lemma create_request_exhausted_draws_witness :
  drawn Run.given_up = (1 + 51)%nat /\
  length (sent Run.occupied Run.given_up) = 50%nat.
Proof.
  assert (Hrun : (Run.create_request Run.bin0 "hello" Run.occupied).1 = Raise RuntimeError)
    by (vm_compute; reflexivity).
  exact (create_request_exhausted_draws (H := reference_models) Run.storage Run.bin0
           "hello" Run.occupied Run.given_up (run_eq _ _ _ Hrun)).
Defined.

Lemma create_request_gives_up_iff_taken_witness :
  (Run.create_request Run.bin0 "hello" Run.occupied).1 = Raise RuntimeError /\
  store Run.given_up = store Run.occupied.
Proof.
  assert (Htaken : is_Some (live Run.occupied
                              (_key_request Run.storage "id0" (Reference.entropy 1 6))))
    by (eexists; vm_compute; reflexivity).
  destruct (create_request_gives_up_iff_taken (H := reference_models) Run.storage
              Run.bin0 "hello" Run.occupied eq_refl)
    as [[_ Hup] Hstore].
  split; [exact (Hup Htaken)|exact (Hstore Htaken)].
Defined.

Lemma create_request_fails_after_writing_witness :
  exists w',
    Run.create_request Run.bin0 "hello" Run.broken_counter = (Raise ResponseError, w') /\
    store w' !! "requestbin:bins:id0:requests:id1" =
      Some (Entry (RString (Reference.pack_request (MkRequest "id1" "hello")))
              (Some 173802)) /\
    store w' !! "requestbin:bins:id0:requests" =
      Some (Entry (RList ["id1"]) (Some 173801)) /\
    store w' !! "requestbin:requests" = Some (Entry (RString "many") None).
Proof.
  destruct (create_request_fails_after_writing (H := reference_models) Run.storage
              Run.bin0 "hello" Run.broken_counter)
    as (w' & Hrun & Hr & Hl & Hc).
  - reflexivity.
  - vm_compute. reflexivity.
  - vm_compute. reflexivity.
  - left. vm_compute. reflexivity.
  - exists w'. split; [exact Hrun|]. split; [exact Hr|]. split; [exact Hl|exact Hc].
Defined.

Lemma lookup_bin_twice_witness :
  let out := Run.lookup_bin "id0" Run.missing_record in
  (Run.lookup_bin "id0" out.2).1 = out.1 /\
  (forall k, k <> "requestbin:bins:id0:details" ->
             store out.2 !! k = store Run.missing_record !! k).
Proof.
  destruct (lookup_bin_twice (H := reference_models) Run.storage "id0"
              Run.missing_record eq_refl)
    as (Hsame & Hframe & _).
  split; [exact Hsame|exact Hframe].
Defined.

Lemma lookup_bin_all_or_nothing_witness :
  let out := Run.lookup_bin "id0" Run.with_three in
  out.1 = Ok (set_requests (rev Run.three_requests) Run.bin0) /\
  store out.2 = store Run.with_three.
Proof.
  destruct (lookup_bin_all_or_nothing (H := reference_models) Run.storage "id0"
              Run.with_three (Reference.pack_bin Run.bin0) Run.bin0
              (Some 173800) (Some 173801) ["id1"; "id2"; "id3"])
    as (Hall & _).
  - reflexivity.
  - vm_compute. reflexivity.
  - vm_compute. reflexivity.
  - vm_compute. reflexivity.
  - discriminate.
  - apply (Hall Run.three_requests).
    repeat (constructor; [eexists; split; vm_compute; reflexivity|]). constructor.
Defined.

Lemma create_request_leaves_other_bins_witness :
  (Run.lookup_bin "id1" (Run.create_request Run.bin0 "hello" Run.with_two_bins).2).1
  = (Run.lookup_bin "id1" Run.with_two_bins).1.
Proof.
  apply (create_request_leaves_other_bins (H := reference_models) Run.storage Run.bin0
           "hello" "id1" Run.with_two_bins).
  - reflexivity.
  - exact colon_free_id0.
  - exact colon_free_id1.
  - discriminate.
Defined.

Lemma create_bin_without_ttl_witness :
  exists bin w1 w2,
    create_bin (H := reference_models) Run.no_retention false Run.empty = (Ok bin, w1) /\
    lookup_bin (H := reference_models) Run.no_retention (Bin_name bin) w1
    = (Raise KeyError, w2).
Proof.
  apply (create_bin_without_ttl (H := reference_models) Run.no_retention false Run.empty).
  - reflexivity.
  - vm_compute. discriminate.
  - split; vm_compute; discriminate.
Defined.

Lemma create_bin_on_taken_name_witness :
  exists w1 w2,
    Run.create_bin true Run.name_reused = (Ok (MkBin "id0" 1000 true []), w1) /\
    Run.lookup_bin "id0" w1
    = (Ok (MkBin "id0" 1000 true (rev Run.three_requests)), w2).
Proof.
  apply (create_bin_on_taken_name (lossless := reference_lossless) Run.storage true
           Run.name_reused Run.three_requests).
  split; [reflexivity|].
  split; [vm_compute; reflexivity|].
  split; [vm_compute; reflexivity|].
  split; [vm_compute; reflexivity|].
  repeat (constructor; [vm_compute; reflexivity|]). constructor.
Defined.

Lemma lookup_bin_until_expiry_witness :
  (Run.lookup_bin "id0" (later 172799 Run.with_three)).1
  = Ok (set_requests (rev Run.three_requests) Run.bin0) /\
  (Run.lookup_bin "id0" (later 172800 Run.with_three)).1 = Raise KeyError.
Proof.
  assert (Hfresh : live Run.empty
                     (_key_request_list Run.storage (Reference.entropy 0 8)) = None)
    by (vm_compute; reflexivity).
  assert (Hbin : (Run.create_bin false Run.empty).1 = Ok Run.bin0)
    by (vm_compute; reflexivity).
  assert (Hrun : (create_all (H := reference_models) Run.storage Run.three_calls
                    Run.with_bin).1 = Ok tt)
    by (vm_compute; reflexivity).
  assert (Httl : 0 < bin_ttl Run.storage) by (vm_compute; reflexivity).
  destruct (lookup_bin_until_expiry (lossless := reference_lossless) Run.storage false
              ["first"; "second"; "third"] Run.empty Run.with_bin Run.with_three
              Run.bin0 172799 eq_refl Httl Hfresh (run_eq _ _ _ Hbin) (run_eq _ _ _ Hrun))
    as [Hbefore _]; [vm_compute; discriminate|].
  destruct (lookup_bin_until_expiry (lossless := reference_lossless) Run.storage false
              ["first"; "second"; "third"] Run.empty Run.with_bin Run.with_three
              Run.bin0 172800 eq_refl Httl Hfresh (run_eq _ _ _ Hbin) (run_eq _ _ _ Hrun))
    as [_ Hafter]; [vm_compute; discriminate|].
  split.
  - apply Hbefore. vm_compute. reflexivity.
  - apply Hafter. vm_compute. discriminate.
Defined.

Lemma count_bins_counts_underscore_keys_witness :
  exists (ks : list string) (w' : World),
    Run.count_bins Run.with_foreign = (Ok (length ks), w') /\
    NoDup ks /\
    (forall k, k ∈ ks <->
       is_Some (live Run.with_foreign k) /\
       exists rest, k = ("requestbin" ++ "_" ++ rest)%string) /\
    store w' = store Run.with_foreign /\
    sent Run.with_foreign w' = [(KEYS "requestbin_*", Multi (Some <$> ks))].
Proof.
  exact (count_bins_counts_underscore_keys Run.storage Run.with_foreign
           plain_requestbin eq_refl).
Defined.

Lemma count_requests_outlives_bins_witness :
  (Run.count_requests (later 1000000 Run.after_mixed)).1 = Ok 2.
Proof.
  assert (He : counter_expiry Run.occupied (_request_count_key Run.storage) = None)
    by (vm_compute; reflexivity).
  assert (Hc : (Run.count_requests Run.occupied).1 = Ok 0) by (vm_compute; reflexivity).
  assert (Hrun : (attempt_all (H := reference_models) Run.storage Run.mixed_calls
                    Run.occupied).1 = Ok 2%nat)
    by (vm_compute; reflexivity).
  apply (count_requests_outlives_bins (H := reference_models) Run.storage Run.mixed_calls
           Run.occupied Run.after_mixed 0 2 1000000 eq_refl He Hc (run_eq _ _ _ Hrun)).
  vm_compute. discriminate.
Defined.

Lemma create_bin_always_returns_witness :
  exists (w' : World) (z : Z),
    Run.create_bin false Run.racing = (Ok Run.bin0, w') /\
    drawn w' = 1%nat /\
    (z = 0 \/ z = 1) /\
    sent Run.racing w' =
      [(SET "requestbin:bins:id0:details" (Reference.pack_bin Run.bin0), Status);
       (EXPIREAT "requestbin:bins:id0:details" 173800, Int z)].
Proof.
  apply (create_bin_always_returns (H := reference_models) Run.storage false Run.racing).
  split; vm_compute; discriminate.
Defined.
